(** * Bober: the in-memory task registry of [main.go]

    A shallow embedding of the HTTP handlers of the task dispatch service
    ([addTask], [getTaskStatus], [getOperations], [getTaskForExecution],
    [handleResult]) as functions on the package-level state, followed by
    the properties of the registry stated in the specification.

    Conventions of the embedding.
    - The package-level variables [tasks], [operations] and
      [taskIDCounter] are the fields of the record [Registry].
    - A handler is a function from the decoded request and the registry to
      the new registry and the response.  The JSON decoding of a request
      body is the [option] argument of the handler: [None] is a body that
      [json.Decoder.Decode] rejects.
    - Go's [int] is the 64-bit signed integer, a [Z] with the wrap-around
      of [taskIDCounter++] written out ([wrap_int]).
    - [float64] is the primitive binary64 type; the registry only stores and
      copies it.
    - [time.Time] is an instant counted from Go's zero time, so that the
      zero value of the type is [0]; [time.Now()] is an argument of the
      handler that calls it.
    - [tasksMutex] makes every handler body one critical section: the
      sequential part of the development runs handlers one after the other
      ([serve]); the last part of the definitions models the lock itself,
      with concurrent [getTaskForExecution] handlers as interleaved
      workers. *)

From Stdlib Require Import ZArith String Ascii List Sorted Lia.
From Stdlib Require Import DecimalString DecimalZ DecimalPos DecimalFacts.
From Stdlib Require Import Floats.PrimFloat.
From stdpp Require Import base list.

Open Scope Z_scope.
Open Scope string_scope.
Open Scope list_scope.

(** ** Machine integers *)

Definition int_bits : Z := 64.
Definition max_int : Z := 2 ^ (int_bits - 1) - 1.
Definition min_int : Z := - 2 ^ (int_bits - 1).

(** Two's complement wrap-around of an [int] result. *)
Definition wrap_int (z : Z) : Z :=
  (z + 2 ^ (int_bits - 1)) mod 2 ^ int_bits - 2 ^ (int_bits - 1).

(** ** Data model *)

Definition Time : Type := Z.
Definition zero_time : Time := 0.

Definition float64 : Type := float.
Definition zero_float : float64 := 0%float.

Record Task : Type := mkTask {
  ID : Z;
  Expression : string;
  Status : string;
  Result : float64;
  StartTime : Time
}.

(** [TaskRequest] and [TaskResponse] have one field each, [Expression] and
    [ID]; the fields carry a prefix here because [Task] owns these names. *)
Record TaskRequest : Type := mkTaskRequest { reqExpression : string }.
Record TaskResponse : Type := mkTaskResponse { respID : Z }.

Record Operation : Type := mkOperation {
  Operator : string;
  Duration : Z
}.

Record Registry : Type := mkRegistry {
  tasks : list Task;
  operations : list Operation;
  taskIDCounter : Z
}.

(** The initial values of the package-level variables. *)
Definition init_operations : list Operation :=
  [ mkOperation "+" 2; mkOperation "-" 2; mkOperation "*" 4; mkOperation "/" 4 ].

Definition init_registry : Registry :=
  {| tasks := []; operations := init_operations; taskIDCounter := 0 |}.

(** What a handler writes to its [http.ResponseWriter]. *)
Inductive Response : Type :=
| OkTaskResponse (resp : TaskResponse)
| OkTask (task : Task)
| OkOperations (ops : list Operation)
| BadRequest
| NotFound
| NoContent.

(** ** [strconv.Itoa] *)

Definition Itoa (i : Z) : string := NilZero.string_of_int (Z.to_int i).

(** ** Handlers *)

Definition with_tasks (s : Registry) (l : list Task) : Registry :=
  {| tasks := l; operations := operations s; taskIDCounter := taskIDCounter s |}.

Definition addTask (body : option TaskRequest) (s : Registry) : Registry * Response :=
  match body with
  | None => (s, BadRequest)
  | Some taskReq =>
      let counter := wrap_int (taskIDCounter s + 1) in
      let newTask :=
        {| ID := counter;
           Expression := reqExpression taskReq;
           Status := "pending";
           Result := zero_float;
           StartTime := zero_time |} in
      ({| tasks := tasks s ++ [newTask];
          operations := operations s;
          taskIDCounter := counter |},
       OkTaskResponse {| respID := counter |})
  end.

(** The loop of [getTaskStatus]: [for _, task := range tasks]. *)
Fixpoint status_loop (taskID : string) (rest : list Task) : option Task :=
  match rest with
  | [] => None
  | task :: rest' =>
      if String.eqb (Itoa (ID task)) taskID then Some task
      else status_loop taskID rest'
  end.

Definition getTaskStatus (taskID : string) (s : Registry) : Registry * Response :=
  match status_loop taskID (tasks s) with
  | Some task => (s, OkTask task)
  | None => (s, NotFound)
  end.

Definition getOperations (s : Registry) : Registry * Response :=
  (s, OkOperations (operations s)).

Definition set_Status (v : string) (t : Task) : Task :=
  {| ID := ID t; Expression := Expression t; Status := v;
     Result := Result t; StartTime := StartTime t |}.

Definition set_StartTime (v : Time) (t : Task) : Task :=
  {| ID := ID t; Expression := Expression t; Status := Status t;
     Result := Result t; StartTime := v |}.

(** The loop of [getTaskForExecution]: [for i, task := range tasks].
    [all] is the slice [tasks], [rest] its part from index [i] on, and
    [task] the loop's copy of [all[i]].  The two assignments go to the
    stored element [tasks[i]]; the value encoded into the response is the
    loop variable [task]. *)
Fixpoint execution_loop (now : Time) (all : list Task) (i : nat) (rest : list Task)
  : option (list Task * Task) :=
  match rest with
  | [] => None
  | task :: rest' =>
      if String.eqb (Status task) "pending" then
        let all1 := alter (set_Status "in_progress") i all in
        let all2 := alter (set_StartTime now) i all1 in
        Some (all2, task)
      else execution_loop now all (S i) rest'
  end.

Definition getTaskForExecution (now : Time) (s : Registry) : Registry * Response :=
  match execution_loop now (tasks s) 0 (tasks s) with
  | Some (tasks', task) => (with_tasks s tasks', OkTask task)
  | None => (s, NotFound)
  end.

(** The loop of [handleResult]: [for i, t := range tasks], left by [break]
    after the first element whose id is the id of the posted task. *)
Fixpoint result_loop (task : Task) (all : list Task) (i : nat) (rest : list Task)
  : list Task :=
  match rest with
  | [] => all
  | t :: rest' =>
      if Z.eqb (ID t) (ID task) then <[i := task]> all
      else result_loop task all (S i) rest'
  end.

Definition handleResult (body : option Task) (s : Registry) : Registry * Response :=
  match body with
  | None => (s, BadRequest)
  | Some task => (with_tasks s (result_loop task (tasks s) 0 (tasks s)), NoContent)
  end.

(** ** The server: requests routed to the handlers, one at a time *)

Inductive Request : Type :=
| ReqAddTask (body : option TaskRequest)
| ReqGetTaskStatus (taskID : string)
| ReqGetOperations
| ReqGetTaskForExecution (now : Time)
| ReqHandleResult (body : option Task).

Definition route (r : Request) (s : Registry) : Registry * Response :=
  match r with
  | ReqAddTask body => addTask body s
  | ReqGetTaskStatus taskID => getTaskStatus taskID s
  | ReqGetOperations => getOperations s
  | ReqGetTaskForExecution now => getTaskForExecution now s
  | ReqHandleResult body => handleResult body s
  end.

Fixpoint serve (reqs : list Request) (s : Registry) : Registry * list Response :=
  match reqs with
  | [] => (s, [])
  | r :: reqs' =>
      let (s1, resp) := route r s in
      let (s2, resps) := serve reqs' s1 in
      (s2, resp :: resps)
  end.

(** The registry after the server has answered [reqs] since process start. *)
Definition registry_after (reqs : list Request) : Registry :=
  fst (serve reqs init_registry).

Definition responses_to (reqs : list Request) : list Response :=
  snd (serve reqs init_registry).

Definition create (e : string) : Request := ReqAddTask (Some (mkTaskRequest e)).

(** The ids handed out by [addTask] in a list of responses, in order. *)
Fixpoint created_ids (resps : list Response) : list Z :=
  match resps with
  | [] => []
  | OkTaskResponse resp :: rest => respID resp :: created_ids rest
  | _ :: rest => created_ids rest
  end.

(** ** The life cycle of a task, as the specification orders it *)

Definition status_rank (st : string) : option nat :=
  if String.eqb st "pending" then Some 0%nat
  else if String.eqb st "in_progress" then Some 1%nat
  else if String.eqb st "completed" then Some 2%nat
  else None.

(** [status_advances a b]: going from status [a] to status [b] stays in
    place or moves forward along pending, in_progress, completed. *)
Definition status_advances (a b : string) : bool :=
  match status_rank a, status_rank b with
  | Some x, Some y => (x <=? y)%nat
  | _, _ => false
  end.

Definition is_report (r : Request) : bool :=
  match r with
  | ReqHandleResult _ => true
  | _ => false
  end.

(** Renderings of an id that read as the same number but are not what
    [Itoa] prints: a leading zero, a plus sign, a space before or after. *)
Definition noncanonical_forms (i : Z) : list string :=
  [ String.append "0" (Itoa i); String.append "+" (Itoa i);
    String.append " " (Itoa i); String.append (Itoa i) " " ].

Definition not_pending (t : Task) : Prop := Status t <> "pending".

(** One step of the life cycle that the handlers other than [handleResult]
    can take: stay, or go from pending to in_progress. *)
Definition stays_or_starts (t t' : Task) : Prop :=
  Status t' = Status t \/ (Status t = "pending" /\ Status t' = "in_progress").

(** Does the character [c] occur in [s]? *)
Fixpoint has_char (c : ascii) (s : string) : bool :=
  match s with
  | EmptyString => false
  | String a s' => Ascii.eqb a c || has_char c s'
  end.

(** ** Concurrent [getTaskForExecution] handlers

    Every request runs in a goroutine of its own.  A worker below is one
    goroutine running [getTaskForExecution], followed statement by
    statement; the shared memory is the slice [tasks] and the state of
    [tasksMutex].  A worker that calls [Lock] while the mutex is held cannot
    move; the deferred [Unlock] runs when the handler returns.  The program
    reads and writes [tasks] only between [Lock] and [Unlock] of this one
    mutex, so every execution is an interleaving of the statements of the
    workers, which a schedule describes. *)

Inductive Worker : Type :=
| AtLock
    (* at [tasksMutex.Lock()] *)
| AtRange (n i : nat)
    (* loop head: [n] is the length of the ranged slice, [i] the next index *)
| AtTest (n i : nat) (task : Task)
    (* [task] is the copy of [tasks[i]]; at [if task.Status == "pending"] *)
| AtSetStatus (i : nat) (task : Task)
    (* at [tasks[i].Status = "in_progress"] *)
| AtSetStartTime (i : nat) (task : Task)
    (* at [tasks[i].StartTime = time.Now()] *)
| AtEncode (task : Task)
    (* at [Encode(task); return] *)
| AtNotFound
    (* after the loop, at [http.NotFound(w, r)] *)
| Returned (resp : Response).

Record Config : Type := mkConfig {
  shared_tasks : list Task;
  mutex_locked : bool;
  workers : list Worker
}.

(** One statement of a worker in the shared state ([tasks] and the mutex);
    [now] is what [time.Now()] returns if the statement calls it.  [None]:
    the worker cannot move, because it waits for the mutex or has
    returned. *)
Definition worker_step (now : Time) (l : list Task) (locked : bool) (w : Worker)
  : option (list Task * bool * Worker) :=
  match w with
  | AtLock =>
      if locked then None else Some (l, true, AtRange (length l) 0)
  | AtRange n i =>
      if (i <? n)%nat then
        match l !! i with
        | Some task => Some (l, locked, AtTest n i task)
        | None => None
        end
      else Some (l, locked, AtNotFound)
  | AtTest n i task =>
      if String.eqb (Status task) "pending"
      then Some (l, locked, AtSetStatus i task)
      else Some (l, locked, AtRange n (S i))
  | AtSetStatus i task =>
      Some (alter (set_Status "in_progress") i l, locked, AtSetStartTime i task)
  | AtSetStartTime i task =>
      Some (alter (set_StartTime now) i l, locked, AtEncode task)
  | AtEncode task =>
      Some (l, false, Returned (OkTask task))
  | AtNotFound =>
      Some (l, false, Returned NotFound)
  | Returned _ => None
  end.

(** The scheduler lets worker [j] run one statement. *)
Definition step_worker (j : nat) (now : Time) (c : Config) : option Config :=
  match workers c !! j with
  | None => None
  | Some w =>
      match worker_step now (shared_tasks c) (mutex_locked c) w with
      | Some (l', locked', w') =>
          Some {| shared_tasks := l';
                  mutex_locked := locked';
                  workers := <[j := w']> (workers c) |}
      | None => None
      end
  end.

(** A schedule names, step after step, the worker that the scheduler picks
    and the clock reading at that moment.  Picking a worker that cannot move
    leaves the configuration as it is. *)
Fixpoint run_schedule (sched : list (nat * Time)) (c : Config) : Config :=
  match sched with
  | [] => c
  | (j, now) :: sched' =>
      match step_worker j now c with
      | Some c' => run_schedule sched' c'
      | None => run_schedule sched' c
      end
  end.

(** [k] handlers started at once on the task list [l]. *)
Definition start_workers (k : nat) (l : list Task) : Config :=
  {| shared_tasks := l; mutex_locked := false; workers := replicate k AtLock |}.

Definition has_returned (w : Worker) : bool :=
  match w with
  | Returned _ => true
  | _ => false
  end.

Definition all_returned (c : Config) : bool := forallb has_returned (workers c).

(** *** Auxiliary notions for the proofs about workers *)

(** [settles l l']: [l'] has the length of [l], and what was not pending in
    [l] is not pending in [l']. *)
Definition settles (l l' : list Task) : Prop :=
  length l' = length l
  /\ forall i t, l !! i = Some t -> not_pending t ->
       exists t', l' !! i = Some t' /\ not_pending t'.

(** A worker between [Lock] and the deferred [Unlock]. *)
Definition in_section (w : Worker) : bool :=
  match w with
  | AtLock | Returned _ => false
  | _ => true
  end.

(** The task that a worker has taken for itself, once it has overwritten
    the stored status. *)
Definition credited (w : Worker) : option Task :=
  match w with
  | AtSetStartTime _ task | AtEncode task | Returned (OkTask task) => Some task
  | _ => None
  end.

(** [claimed l0 l i task]: [task] is the pending task that the slice held
    at index [i] at the start ([l0]), and the slice now ([l]) holds a task
    at [i] that is no longer pending. *)
Definition claimed (l0 l : list Task) (i : nat) (task : Task) : Prop :=
  l0 !! i = Some task /\ Status task = "pending"
  /\ exists t', l !! i = Some t' /\ not_pending t'.

Definition below_not_pending (l : list Task) (i : nat) : Prop :=
  forall (i' : nat) (t : Task), (i' < i)%nat -> l !! i' = Some t -> not_pending t.

(** What is known about a worker at each program point; [fj] is the index
    that the worker has claimed, if it has claimed one. *)
Definition worker_ok (l0 l : list Task) (fj : nat) (w : Worker) : Prop :=
  match w with
  | AtLock => True
  | AtRange n i => n = length l /\ below_not_pending l i
  | AtTest n i task => n = length l /\ l !! i = Some task /\ below_not_pending l i
  | AtSetStatus i task => l !! i = Some task /\ Status task = "pending"
  | AtSetStartTime i task => fj = i /\ claimed l0 l fj task
  | AtEncode task => claimed l0 l fj task
  | AtNotFound => Forall not_pending l
  | Returned (OkTask task) => claimed l0 l fj task
  | Returned NotFound => Forall not_pending l
  | Returned _ => False
  end.

(** The invariant of the configurations that [k] workers can reach from the
    task list [l0]; [f j] is the index claimed by worker [j]. *)
Record Inv (l0 : list Task) (f : nat -> nat) (c : Config) : Prop := mkInv {
  inv_length : length (shared_tasks c) = length l0;
  inv_pending_now :
    forall i t, shared_tasks c !! i = Some t -> Status t = "pending" -> l0 !! i = Some t;
  inv_pending_start :
    forall i t, l0 !! i = Some t -> Status t = "pending" ->
      shared_tasks c !! i = Some t
      \/ exists j w, workers c !! j = Some w /\ credited w = Some t /\ f j = i;
  inv_workers :
    forall j w, workers c !! j = Some w -> worker_ok l0 (shared_tasks c) (f j) w;
  inv_exclusive :
    forall j1 j2 w1 w2,
      workers c !! j1 = Some w1 -> workers c !! j2 = Some w2 ->
      in_section w1 = true -> in_section w2 = true -> j1 = j2;
  inv_mutex :
    if mutex_locked c
    then exists j w, workers c !! j = Some w /\ in_section w = true
    else forall j w, workers c !! j = Some w -> in_section w = false;
  inv_distinct :
    forall j1 j2 w1 w2 t1 t2,
      workers c !! j1 = Some w1 -> workers c !! j2 = Some w2 ->
      credited w1 = Some t1 -> credited w2 = Some t2 ->
      f j1 = f j2 -> j1 = j2
}.

(** A bound on the statements that a worker still runs before it returns;
    [len] is the length of the slice. *)
Definition steps_left (len : nat) (w : Worker) : nat :=
  match w with
  | AtLock => 2 * len + 6
  | AtRange n i => 2 * (n - i) + 5
  | AtTest n i _ => 2 * (n - i) + 4
  | AtSetStatus _ _ => 3
  | AtSetStartTime _ _ => 2
  | AtEncode _ => 1
  | AtNotFound => 1
  | Returned _ => 0
  end.

Definition total_steps_left (c : Config) : nat :=
  list_sum (steps_left (length (shared_tasks c)) <$> workers c).

(** The ids of the stored tasks are 1, 2, ... in the order of the slice, and
    the counter is the number of stored tasks. *)
Definition ids_in_order (s : Registry) : Prop :=
  taskIDCounter s = Z.of_nat (length (tasks s))
  /\ ID <$> tasks s = seqZ 1 (Z.of_nat (length (tasks s))).

(** ** Notions for the further properties of the handlers *)

(** Requests that only read, or whose body does not decode. *)
Definition is_noop (r : Request) : bool :=
  match r with
  | ReqAddTask None | ReqHandleResult None => true
  | ReqGetTaskStatus _ | ReqGetOperations => true
  | _ => false
  end.

Definition is_pending (t : Task) : bool := String.eqb (Status t) "pending".

(** The stored tasks that wait for a worker, in the order of the slice. *)
Definition pending_queue (s : Registry) : list Task :=
  List.filter is_pending (tasks s).

(** One call of [getTaskForExecution] at each of the given instants. *)
Definition claims (nows : list Time) : list Request :=
  ReqGetTaskForExecution <$> nows.

(** [untouched_or_started t t']: the record [t'] is [t], or [t] was pending
    and [t'] differs from it in status and start time only. *)
Definition untouched_or_started (t t' : Task) : Prop :=
  t' = t
  \/ (Status t = "pending"
      /\ exists now, t' = mkTask (ID t) (Expression t) "in_progress" (Result t) now).

Definition got_task (w : Worker) : bool :=
  match w with
  | Returned (OkTask _) => true
  | _ => false
  end.

Definition is_credited (w : Worker) : bool :=
  match credited w with
  | Some _ => true
  | None => false
  end.

(** Tasks that are still pending plus tasks that a worker has taken. *)
Definition count_open (c : Config) : nat :=
  (length (List.filter is_pending (shared_tasks c))
   + length (List.filter is_credited (workers c)))%nat.

(** *** Concurrent runs against sequential runs

    [order] lists the workers that have returned, in the order in which
    they returned, each with the clock reading of its critical section.
    The sequential run that [order] stands for calls the handler
    [getTaskForExecution] once for every entry, in this order. *)

Definition seq_registry (s0 : Registry) (order : list (nat * Time)) : Registry :=
  fst (serve (claims (snd <$> order)) s0).

Definition seq_responses (s0 : Registry) (order : list (nat * Time)) : list Response :=
  snd (serve (claims (snd <$> order)) s0).

(** How the shared slice and a worker stand to the registry [sq] of the
    sequential run, at each program point. *)
Definition section_rel (sq : Registry) (shared : list Task) (w : Worker) : Prop :=
  match w with
  | AtLock | Returned _ => True
  | AtRange n i => shared = tasks sq /\ below_not_pending (tasks sq) i
  | AtTest n i task =>
      shared = tasks sq /\ tasks sq !! i = Some task /\ below_not_pending (tasks sq) i
  | AtSetStatus i task =>
      shared = tasks sq /\ tasks sq !! i = Some task /\ Status task = "pending"
      /\ below_not_pending (tasks sq) i
  | AtSetStartTime i task =>
      shared = alter (set_Status "in_progress") i (tasks sq)
      /\ tasks sq !! i = Some task /\ Status task = "pending"
      /\ below_not_pending (tasks sq) i
  | AtEncode task =>
      exists now, snd (getTaskForExecution now sq) = OkTask task
                  /\ tasks (fst (getTaskForExecution now sq)) = shared
  | AtNotFound => shared = tasks sq /\ Forall not_pending (tasks sq)
  end.

Record Lin (s0 : Registry) (c : Config) (order : list (nat * Time)) : Prop := mkLin {
  lin_nodup : NoDup (fst <$> order);
  lin_returned :
    forall j, j ∈ (fst <$> order) <-> exists resp, workers c !! j = Some (Returned resp);
  lin_responses :
    forall p j now, order !! p = Some (j, now) ->
      exists resp, workers c !! j = Some (Returned resp)
                   /\ seq_responses s0 order !! p = Some resp;
  lin_section :
    forall j w, workers c !! j = Some w ->
      section_rel (seq_registry s0 order) (shared_tasks c) w;
  lin_idle :
    mutex_locked c = false -> shared_tasks c = tasks (seq_registry s0 order)
}.

(** ** Reports that only move a status forward *)

(** The record that the loop of [handleResult] would replace: the first
    stored task with the given id. *)
Definition first_with_id (id : Z) (l : list Task) : option Task :=
  List.find (fun t => Z.eqb (ID t) id) l.

(** [report_advances r s]: if [r] is a report that replaces a stored record
    of [s], the posted status is not behind the stored one (and is one of
    pending, in_progress, completed).  Every other request passes. *)
Definition report_advances (r : Request) (s : Registry) : bool :=
  match r with
  | ReqHandleResult (Some task) =>
      match first_with_id (ID task) (tasks s) with
      | Some t => status_advances (Status t) (Status task)
      | None => true
      end
  | _ => true
  end.

(** Every report of the sequence [reqs], served from [s] on, advances. *)
Fixpoint reports_advance (reqs : list Request) (s : Registry) : bool :=
  match reqs with
  | [] => true
  | r :: reqs' => report_advances r s && reports_advance reqs' (fst (route r s))
  end.

(** Every stored status is one of pending, in_progress, completed. *)
Definition known_statuses (s : Registry) : Prop :=
  Forall (fun t => status_rank (Status t) <> None) (tasks s).

(** * Properties *)

(** ** First checks *)

Example serve_example :
  responses_to [create "1+1"; ReqGetTaskStatus "1"; ReqGetTaskStatus "2"]
  = [ OkTaskResponse (mkTaskResponse 1);
      OkTask (mkTask 1 "1+1" "pending" zero_float zero_time);
      NotFound ].
Proof. reflexivity. Qed.

Example Itoa_examples :
  Itoa 0 = "0" /\ Itoa 42 = "42" /\ Itoa (-15) = "-15" /\ Itoa 1200 = "1200".
Proof. repeat split. Qed.

Example wrap_int_examples :
  wrap_int 7 = 7 /\ wrap_int (max_int + 1) = min_int /\ wrap_int (min_int - 1) = max_int.
Proof. repeat split. Qed.

(** A worker is handed the first task, reports it, and the second task is
    still waiting. *)
Example serve_claim_and_report :
  let done := mkTask 1 "1+1" "completed" 2%float 5 in
  serve [ create "1+1"; create "2*3"; ReqGetTaskForExecution 5;
          ReqHandleResult (Some done); ReqHandleResult None; ReqAddTask None ]
        init_registry
  = ({| tasks := [done; mkTask 2 "2*3" "pending" zero_float zero_time];
        operations := init_operations;
        taskIDCounter := 2 |},
     [ OkTaskResponse (mkTaskResponse 1); OkTaskResponse (mkTaskResponse 2);
       OkTask (mkTask 1 "1+1" "pending" zero_float zero_time);
       NoContent; BadRequest; BadRequest ]).
Proof. reflexivity. Qed.

(** ** The operation catalog *)

Lemma route_operations (r : Request) (s : Registry) :
  operations (fst (route r s)) = operations s.
Proof.
  destruct r as [[req|] | taskID | | now | [task|]]; simpl; try reflexivity.
  - unfold getTaskStatus. destruct (status_loop taskID (tasks s)); reflexivity.
  - unfold getTaskForExecution.
    destruct (execution_loop now (tasks s) 0 (tasks s)) as [[l t]|]; reflexivity.
Qed.

Lemma serve_operations (reqs : list Request) (s : Registry) :
  operations (fst (serve reqs s)) = operations s.
Proof.
  revert s. induction reqs as [|r reqs IH]; intros s; simpl; [reflexivity|].
  pose proof (route_operations r s) as Hr.
  destruct (route r s) as [s1 resp]. simpl in Hr.
  specialize (IH s1). destruct (serve reqs s1) as [s2 resps]. simpl in *.
  congruence.
Qed.

(** C8. After any sequence of requests since process start the catalog is
    the list of the four entries ("+",2), ("-",2), ("*",4), ("/",4) in this
    order; [getOperations] answers with exactly this list, leaves the
    registry as it is, and every request leaves the catalog as it is. *)
Theorem getOperations_catalog_stable (reqs : list Request) :
  let s := registry_after reqs in
  getOperations s
    = (s, OkOperations [ mkOperation "+" 2; mkOperation "-" 2;
                         mkOperation "*" 4; mkOperation "/" 4 ])
  /\ (forall r : Request, operations (fst (route r s)) = operations s).
Proof.
  simpl. split.
  - unfold getOperations, registry_after. rewrite serve_operations. reflexivity.
  - intros r. apply route_operations.
Qed.

(** ** Machine integers *)

Lemma wrap_int_small (z : Z) : min_int <= z <= max_int -> wrap_int z = z.
Proof.
  unfold wrap_int, min_int, max_int, int_bits. intros Hz.
  rewrite Z.mod_small; lia.
Qed.

Lemma with_tasks_same (s : Registry) : with_tasks s (tasks s) = s.
Proof. destruct s; reflexivity. Qed.

(** ** The loop of [getTaskForExecution] *)

Lemma execution_loop_none (now : Time) (all : list Task) (i : nat) (rest : list Task) :
  execution_loop now all i rest = None <-> Forall not_pending rest.
Proof.
  revert i. induction rest as [|t rest IH]; intros i; simpl.
  - split; [constructor | reflexivity].
  - destruct (String.eqb_spec (Status t) "pending") as [Hp|Hp].
    + split; [discriminate|]. intros H. inversion H; subst. contradiction.
    + rewrite IH. split.
      * intros H. constructor; assumption.
      * intros H. inversion H; assumption.
Qed.

Lemma execution_loop_first (now : Time) (l1 : list Task) :
  forall (pre : list Task) (t : Task) (l2 : list Task),
  Forall not_pending l1 -> Status t = "pending" ->
  execution_loop now (pre ++ l1 ++ t :: l2) (length pre) (l1 ++ t :: l2)
  = Some (pre ++ l1 ++ set_StartTime now (set_Status "in_progress" t) :: l2, t).
Proof.
  induction l1 as [|a l1 IH]; intros pre t l2 Hl1 Hpend; simpl.
  - rewrite Hpend. simpl.
    replace (length pre) with (length pre + 0)%nat by lia.
    rewrite !alter_app_r. reflexivity.
  - inversion Hl1 as [|? ? Ha Hl1']; subst.
    destruct (String.eqb_spec (Status a) "pending") as [Hp|_]; [contradiction|].
    specialize (IH (pre ++ [a]) t l2 Hl1' Hpend).
    rewrite length_app in IH. simpl in IH.
    replace (length pre + 1)%nat with (S (length pre)) in IH by lia.
    rewrite <- !app_assoc in IH. simpl in IH. exact IH.
Qed.

Lemma not_pending_dec (l : list Task) :
  Forall not_pending l \/ ~ Forall not_pending l.
Proof.
  destruct (execution_loop 0 l 0 l) as [p|] eqn:E.
  - right. intros H. apply (execution_loop_none 0 l 0) in H. congruence.
  - left. apply (execution_loop_none 0 l 0). exact E.
Qed.

(** A list with a pending task splits at its first pending task. *)
Lemma first_pending_split (l : list Task) :
  ~ Forall not_pending l ->
  exists l1 t l2, l = l1 ++ t :: l2 /\ Forall not_pending l1 /\ Status t = "pending".
Proof.
  induction l as [|a l IH]; intros Hn.
  - exfalso. apply Hn. constructor.
  - destruct (String.eqb_spec (Status a) "pending") as [Hp|Hp].
    + exists [], a, l. repeat split; [constructor | assumption].
    + destruct IH as (l1 & t & l2 & -> & Hl1 & Ht).
      { intros Hall. apply Hn. constructor; assumption. }
      exists (a :: l1), t, l2. repeat split; [constructor; assumption | assumption].
Qed.

Lemma getTaskForExecution_split (now : Time) (s : Registry) (l1 : list Task)
    (t : Task) (l2 : list Task) :
  tasks s = l1 ++ t :: l2 -> Forall not_pending l1 -> Status t = "pending" ->
  getTaskForExecution now s
  = (with_tasks s (l1 ++ set_StartTime now (set_Status "in_progress" t) :: l2),
     OkTask t).
Proof.
  intros Hs Hl1 Ht. unfold getTaskForExecution. rewrite Hs.
  pose proof (execution_loop_first now l1 [] t l2 Hl1 Ht) as H.
  simpl in H. rewrite H. reflexivity.
Qed.

Lemma getTaskForExecution_empty (now : Time) (s : Registry) :
  Forall not_pending (tasks s) -> getTaskForExecution now s = (s, NotFound).
Proof.
  intros H. unfold getTaskForExecution.
  apply (execution_loop_none now (tasks s) 0) in H. rewrite H. reflexivity.
Qed.

(** What the handler hands out is the loop's copy, taken before the two
    assignments to [tasks[i]]: the response still says "pending". *)
Lemma getTaskForExecution_response_is_stale (now : Time) (s : Registry) :
  ~ Forall not_pending (tasks s) ->
  exists (s' : Registry) (t : Task),
    getTaskForExecution now s = (s', OkTask t) /\ Status t = "pending" /\ t ∈ tasks s.
Proof.
  intros Hn. destruct (first_pending_split _ Hn) as (l1 & t & l2 & Hs & Hl1 & Ht).
  eexists _, t. split; [apply (getTaskForExecution_split now s l1 t l2); assumption|].
  split; [assumption|]. rewrite Hs. apply elem_of_app. right. apply elem_of_cons. left. reflexivity.
Qed.

(** C1. The registry holds one pending task, created by
    [addTask] with the expression "1+1"; [getTaskForExecution] runs at the
    instant 1000.  The stored record becomes in_progress with start time
    1000, while the record in the response has status "pending" and the
    zero start time: the response is not a copy of the updated record. *)
Theorem getTaskForExecution_returns_stale_copy :
  let s := registry_after [create "1+1"] in
  getTaskForExecution 1000 s
  = (with_tasks s [mkTask 1 "1+1" "in_progress" zero_float 1000],
     OkTask (mkTask 1 "1+1" "pending" zero_float zero_time)).
Proof. reflexivity. Qed.

(** C2. [getTaskForExecution] picks the first task, in the order of the
    slice (creation order), whose status is "pending": the stored record at
    that place gets status "in_progress" and the current time as start time,
    every other record stays as it is, and the loop's copy of the picked
    task is sent.  The answer is [NotFound] exactly when no stored task is
    pending, and then the registry is unchanged. *)
Theorem getTaskForExecution_first_pending (now : Time) (s : Registry) :
  (forall (l1 : list Task) (t : Task) (l2 : list Task),
      tasks s = l1 ++ t :: l2 ->
      Forall (fun t' => Status t' <> "pending") l1 ->
      Status t = "pending" ->
      getTaskForExecution now s
      = (with_tasks s
           (l1 ++ mkTask (ID t) (Expression t) "in_progress" (Result t) now :: l2),
         OkTask t))
  /\ (snd (getTaskForExecution now s) = NotFound
      <-> Forall (fun t => Status t <> "pending") (tasks s))
  /\ (Forall (fun t => Status t <> "pending") (tasks s) ->
      getTaskForExecution now s = (s, NotFound)).
Proof.
  split; [|split].
  - intros l1 t l2 Hs Hl1 Ht.
    apply (getTaskForExecution_split now s l1 t l2 Hs Hl1 Ht).
  - split.
    + intros Hresp.
      destruct (not_pending_dec (tasks s)) as [Hall|Hn]; [exact Hall|].
      destruct (getTaskForExecution_response_is_stale now s Hn) as (s' & t & Heq & _).
      rewrite Heq in Hresp. discriminate.
    + intros Hall. rewrite (getTaskForExecution_empty now s Hall). reflexivity.
  - apply getTaskForExecution_empty.
Qed.

Lemma getTaskForExecution_first_pending_witness :
  let s := registry_after [ create "1+1"; create "2*3";
                            ReqGetTaskForExecution 5; create "8/4" ] in
  getTaskForExecution 9 s
  = (with_tasks s [ mkTask 1 "1+1" "in_progress" zero_float 5;
                    mkTask 2 "2*3" "in_progress" zero_float 9;
                    mkTask 3 "8/4" "pending" zero_float zero_time ],
     OkTask (mkTask 2 "2*3" "pending" zero_float zero_time)).
Proof.
  apply (proj1 (getTaskForExecution_first_pending 9
                  (registry_after [ create "1+1"; create "2*3";
                                    ReqGetTaskForExecution 5; create "8/4" ]))
           [mkTask 1 "1+1" "in_progress" zero_float 5]
           (mkTask 2 "2*3" "pending" zero_float zero_time)
           [mkTask 3 "8/4" "pending" zero_float zero_time]).
  - reflexivity.
  - repeat constructor. discriminate.
  - reflexivity.
Defined.

(** ** The loop of [handleResult] *)

Lemma result_loop_no_match (task : Task) (all : list Task) (i : nat) (rest : list Task) :
  Forall (fun t => ID t <> ID task) rest -> result_loop task all i rest = all.
Proof.
  revert i. induction rest as [|t rest IH]; intros i Hrest; simpl; [reflexivity|].
  inversion Hrest as [|? ? Ht Hrest']; subst.
  destruct (Z.eqb_spec (ID t) (ID task)) as [He|_]; [contradiction|].
  apply IH. exact Hrest'.
Qed.

Lemma result_loop_first (task : Task) (l1 : list Task) :
  forall (pre : list Task) (t : Task) (l2 : list Task),
  Forall (fun t' => ID t' <> ID task) l1 -> ID t = ID task ->
  result_loop task (pre ++ l1 ++ t :: l2) (length pre) (l1 ++ t :: l2)
  = pre ++ l1 ++ task :: l2.
Proof.
  induction l1 as [|a l1 IH]; intros pre t l2 Hl1 Hid; simpl.
  - rewrite Hid, Z.eqb_refl.
    replace (length pre) with (length pre + 0)%nat by lia.
    rewrite insert_app_r. reflexivity.
  - inversion Hl1 as [|? ? Ha Hl1']; subst.
    destruct (Z.eqb_spec (ID a) (ID task)) as [He|_]; [contradiction|].
    specialize (IH (pre ++ [a]) t l2 Hl1' Hid).
    rewrite length_app in IH. simpl in IH.
    replace (length pre + 1)%nat with (S (length pre)) in IH by lia.
    rewrite <- !app_assoc in IH. simpl in IH. exact IH.
Qed.

(** Splitting a list at an index below which a property holds. *)
Lemma split_at_index {A : Type} (P : A -> Prop) (l : list A) (i : nat) (x : A) :
  l !! i = Some x ->
  (forall j y, (j < i)%nat -> l !! j = Some y -> P y) ->
  l = take i l ++ x :: drop (S i) l /\ Forall P (take i l) /\ length (take i l) = i.
Proof.
  intros Hi Hbelow. split; [|split].
  - symmetry. apply take_drop_middle. exact Hi.
  - apply Forall_lookup. intros j y Hj.
    pose proof (lookup_lt_Some _ _ _ Hj) as Hlen. rewrite length_take in Hlen.
    rewrite lookup_take_lt in Hj by lia. apply (Hbelow j); [lia | exact Hj].
  - rewrite length_take. apply lookup_lt_Some in Hi. lia.
Qed.

Lemma handleResult_at (task : Task) (s : Registry) (i : nat) (t : Task) :
  tasks s !! i = Some t -> ID t = ID task ->
  (forall j t', (j < i)%nat -> tasks s !! j = Some t' -> ID t' <> ID task) ->
  handleResult (Some task) s = (with_tasks s (<[i := task]> (tasks s)), NoContent).
Proof.
  intros Hi Hid Hbelow.
  destruct (split_at_index (fun t' => ID t' <> ID task) _ _ _ Hi Hbelow)
    as (Hsplit & Hpre & Hlen).
  unfold handleResult. f_equal. f_equal.
  pose proof (result_loop_first task (take i (tasks s)) [] t (drop (S i) (tasks s))
                Hpre Hid) as H.
  simpl in H. rewrite <- Hsplit in H. rewrite H.
  symmetry. apply insert_take_drop. apply lookup_lt_Some in Hi. exact Hi.
Qed.

Lemma id_match_dec (id : Z) (l : list Task) :
  Forall (fun t => ID t <> id) l
  \/ exists l1 t l2, l = l1 ++ t :: l2 /\ Forall (fun t' => ID t' <> id) l1 /\ ID t = id.
Proof.
  induction l as [|a l IH].
  - left. constructor.
  - destruct (Z.eq_dec (ID a) id) as [He|Hne].
    + right. exists [], a, l. repeat split; [constructor | exact He].
    + destruct IH as [Hall | (l1 & t & l2 & -> & Hl1 & Ht)].
      * left. constructor; assumption.
      * right. exists (a :: l1), t, l2. repeat split; [constructor; assumption | exact Ht].
Qed.

Lemma handleResult_split (task : Task) (s : Registry) (l1 : list Task) (t : Task)
    (l2 : list Task) :
  tasks s = l1 ++ t :: l2 -> Forall (fun t' => ID t' <> ID task) l1 -> ID t = ID task ->
  handleResult (Some task) s = (with_tasks s (l1 ++ task :: l2), NoContent).
Proof.
  intros Hs Hl1 Ht. unfold handleResult. rewrite Hs.
  pose proof (result_loop_first task l1 [] t l2 Hl1 Ht) as H. simpl in H.
  rewrite H. reflexivity.
Qed.

Lemma handleResult_no_match (task : Task) (s : Registry) :
  Forall (fun t => ID t <> ID task) (tasks s) ->
  handleResult (Some task) s = (s, NoContent).
Proof.
  intros H. unfold handleResult. rewrite result_loop_no_match by exact H.
  rewrite with_tasks_same. reflexivity.
Qed.

(** C4. When no stored task has the id of the posted record,
    [handleResult] leaves the registry exactly as it was and still answers
    with the no-content acknowledgement. *)
Theorem handleResult_unknown_id (task : Task) (s : Registry) :
  (forall t, t ∈ tasks s -> ID t <> ID task) ->
  handleResult (Some task) s = (s, NoContent).
Proof.
  intros Hno. unfold handleResult.
  rewrite result_loop_no_match.
  - rewrite with_tasks_same. reflexivity.
  - apply Forall_forall. exact Hno.
Qed.

Lemma handleResult_unknown_id_witness :
  let s := registry_after [create "1+1"; create "2*3"] in
  let posted := mkTask 9999 "7/0" "completed" zero_float zero_time in
  handleResult (Some posted) s = (s, NoContent).
Proof.
  apply handleResult_unknown_id.
  intros t Ht. vm_compute in Ht.
  apply elem_of_cons in Ht as [-> | Ht]; [vm_compute; discriminate|].
  apply elem_of_cons in Ht as [-> | Ht]; [vm_compute; discriminate|].
  apply elem_of_nil in Ht. destruct Ht.
Defined.

(** C9. When the stored task at index [i] is the first one with the id of
    the posted record, [handleResult] puts the posted record, whole, at
    index [i]; every other record, the number of records and their order,
    the id counter and the catalog are as before, and the answer is the
    no-content acknowledgement. *)
Theorem handleResult_replaces_one (task : Task) (s : Registry) (i : nat) (t : Task) :
  tasks s !! i = Some t ->
  ID t = ID task ->
  (forall j t', (j < i)%nat -> tasks s !! j = Some t' -> ID t' <> ID task) ->
  let s' := fst (handleResult (Some task) s) in
  tasks s' !! i = Some task
  /\ (forall j, j <> i -> tasks s' !! j = tasks s !! j)
  /\ length (tasks s') = length (tasks s)
  /\ taskIDCounter s' = taskIDCounter s
  /\ operations s' = operations s
  /\ snd (handleResult (Some task) s) = NoContent.
Proof.
  intros Hi Hid Hbelow s'. subst s'.
  rewrite (handleResult_at task s i t Hi Hid Hbelow). simpl.
  split; [|split; [|split; [|split; [|split]]]]; try reflexivity.
  - apply list_lookup_insert_eq. apply lookup_lt_Some in Hi. exact Hi.
  - intros j Hj. apply list_lookup_insert_ne. congruence.
  - apply length_insert.
Qed.

Lemma handleResult_replaces_one_witness :
  let s := registry_after [create "1+1"; create "2*3"; ReqGetTaskForExecution 7] in
  let posted := mkTask 2 "2*3" "completed" 6%float 7 in
  let s' := fst (handleResult (Some posted) s) in
  tasks s' !! 1%nat = Some posted
  /\ (forall j, j <> 1%nat -> tasks s' !! j = tasks s !! j)
  /\ length (tasks s') = length (tasks s)
  /\ taskIDCounter s' = taskIDCounter s
  /\ operations s' = operations s
  /\ snd (handleResult (Some posted) s) = NoContent.
Proof.
  apply (handleResult_replaces_one
           (mkTask 2 "2*3" "completed" 6%float 7)
           (registry_after [create "1+1"; create "2*3"; ReqGetTaskForExecution 7])
           1%nat (mkTask 2 "2*3" "pending" zero_float zero_time)).
  - reflexivity.
  - reflexivity.
  - intros j t' Hj Ht'. assert (j = 0%nat) as -> by lia.
    vm_compute in Ht'. injection Ht' as <-. vm_compute. discriminate.
Defined.

(** ** Identifiers *)

Lemma fmap_ID_alter (f : Task -> Task) (k : nat) (l : list Task) :
  (forall t, ID (f t) = ID t) -> ID <$> alter f k l = ID <$> l.
Proof.
  intros Hf. revert k. induction l as [|a l IH]; intros [|k]; simpl; try reflexivity.
  - rewrite Hf. reflexivity.
  - f_equal. apply IH.
Qed.

Lemma execution_loop_alter (now : Time) (all : list Task) (rest : list Task) :
  forall (i : nat) (all' : list Task) (t : Task),
  execution_loop now all i rest = Some (all', t) ->
  exists k, all' = alter (set_StartTime now) k (alter (set_Status "in_progress") k all).
Proof.
  induction rest as [|a rest IH]; intros i all' t; simpl; [discriminate|].
  destruct (String.eqb (Status a) "pending").
  - intros [= <- <-]. exists i. reflexivity.
  - apply IH.
Qed.

Lemma getTaskForExecution_ids (now : Time) (s : Registry) :
  ID <$> tasks (fst (getTaskForExecution now s)) = ID <$> tasks s.
Proof.
  unfold getTaskForExecution.
  destruct (execution_loop now (tasks s) 0 (tasks s)) as [[all' t]|] eqn:E;
    [|reflexivity].
  destruct (execution_loop_alter _ _ _ _ _ _ E) as [k ->]. simpl.
  rewrite !fmap_ID_alter; reflexivity.
Qed.

Lemma result_loop_ids (task : Task) (rest : list Task) :
  forall pre : list Task,
  ID <$> result_loop task (pre ++ rest) (length pre) rest = ID <$> (pre ++ rest).
Proof.
  induction rest as [|t rest IH]; intros pre; simpl; [reflexivity|].
  destruct (Z.eqb_spec (ID t) (ID task)) as [He|_].
  - replace (length pre) with (length pre + 0)%nat by lia.
    rewrite insert_app_r. simpl. rewrite !fmap_app. simpl. rewrite He. reflexivity.
  - specialize (IH (pre ++ [t])).
    rewrite length_app in IH. simpl in IH.
    replace (length pre + 1)%nat with (S (length pre)) in IH by lia.
    rewrite <- !app_assoc in IH. exact IH.
Qed.

Lemma handleResult_ids (body : option Task) (s : Registry) :
  ID <$> tasks (fst (handleResult body s)) = ID <$> tasks s.
Proof.
  destruct body as [task|]; simpl; [|reflexivity].
  apply (result_loop_ids task (tasks s) []).
Qed.

Lemma same_ids_same_length (l l' : list Task) :
  ID <$> l' = ID <$> l -> length l' = length l.
Proof. intros H. rewrite <- (length_fmap ID l'), H. apply length_fmap. Qed.

(** Every request other than a well-formed [addTask] keeps the ids, the
    counter and the number of stored tasks, and its response carries no new
    id. *)
Lemma route_keeps_ids (r : Request) (s : Registry) :
  (forall req, r <> ReqAddTask (Some req)) ->
  ID <$> tasks (fst (route r s)) = ID <$> tasks s
  /\ taskIDCounter (fst (route r s)) = taskIDCounter s
  /\ created_ids [snd (route r s)] = [].
Proof.
  intros Hr. destruct r as [[req|] | taskID | | now | body]; simpl.
  - destruct (Hr req). reflexivity.
  - auto.
  - unfold getTaskStatus. destruct (status_loop taskID (tasks s)); simpl; auto.
  - auto.
  - split; [apply getTaskForExecution_ids|].
    unfold getTaskForExecution.
    destruct (execution_loop now (tasks s) 0 (tasks s)) as [[all' t]|]; simpl; auto.
  - split; [apply handleResult_ids|].
    destruct body; simpl; auto.
Qed.

Lemma addTask_ids_in_order (req : TaskRequest) (s : Registry) :
  ids_in_order s ->
  Z.of_nat (length (tasks (fst (addTask (Some req) s)))) <= max_int ->
  ids_in_order (fst (addTask (Some req) s))
  /\ snd (addTask (Some req) s)
     = OkTaskResponse (mkTaskResponse (Z.of_nat (length (tasks s)) + 1)).
Proof.
  intros [Hc Hids]. simpl. rewrite length_app. simpl. intros Hlen.
  assert (wrap_int (taskIDCounter s + 1) = Z.of_nat (length (tasks s)) + 1) as Hw.
  { rewrite Hc. apply wrap_int_small. unfold min_int, int_bits. lia. }
  rewrite Hw. split; [|reflexivity].
  split; simpl.
  - rewrite length_app. simpl. lia.
  - rewrite length_app, fmap_app, Hids. simpl.
    replace (length (tasks s) + 1)%nat with (S (length (tasks s))) by lia.
    rewrite seqZ_S. f_equal. f_equal. lia.
Qed.

Lemma route_length_mono (r : Request) (s : Registry) :
  (length (tasks s) <= length (tasks (fst (route r s))))%nat.
Proof.
  destruct r as [[req|] | taskID | | now | body].
  - simpl. rewrite length_app. lia.
  - simpl. lia.
  - destruct (route_keeps_ids (ReqGetTaskStatus taskID) s) as (H & _); [discriminate|].
    apply same_ids_same_length in H. lia.
  - simpl. lia.
  - destruct (route_keeps_ids (ReqGetTaskForExecution now) s) as (H & _); [discriminate|].
    apply same_ids_same_length in H. lia.
  - destruct (route_keeps_ids (ReqHandleResult body) s) as (H & _); [discriminate|].
    apply same_ids_same_length in H. lia.
Qed.

Lemma serve_length_mono (reqs : list Request) :
  forall s : Registry, (length (tasks s) <= length (tasks (fst (serve reqs s))))%nat.
Proof.
  induction reqs as [|r reqs IH]; intros s; simpl; [lia|].
  pose proof (route_length_mono r s) as Hr.
  destruct (route r s) as [s1 resp]. simpl in Hr.
  specialize (IH s1). destruct (serve reqs s1) as [s2 resps]. simpl in *. lia.
Qed.

Lemma serve_cons (r : Request) (reqs : list Request) (s : Registry) :
  serve (r :: reqs) s
  = (fst (serve reqs (fst (route r s))),
     snd (route r s) :: snd (serve reqs (fst (route r s)))).
Proof.
  simpl. destruct (route r s) as [s1 resp]. simpl.
  destruct (serve reqs s1) as [s2 resps]. reflexivity.
Qed.

Lemma serve_app (reqs1 reqs2 : list Request) (s : Registry) :
  serve (reqs1 ++ reqs2) s
  = (fst (serve reqs2 (fst (serve reqs1 s))),
     snd (serve reqs1 s) ++ snd (serve reqs2 (fst (serve reqs1 s)))).
Proof.
  revert s. induction reqs1 as [|r reqs1 IH]; intros s.
  - simpl. destruct (serve reqs2 s). reflexivity.
  - rewrite <- app_comm_cons, !serve_cons, IH. reflexivity.
Qed.

Lemma add_or_not (r : Request) :
  (exists req, r = ReqAddTask (Some req)) \/ (forall req, r <> ReqAddTask (Some req)).
Proof.
  destruct r as [[req|] | | | | ]; try (right; intros req'; discriminate).
  left. exists req. reflexivity.
Qed.

Lemma created_ids_cons (resp : Response) (resps : list Response) :
  created_ids (resp :: resps) = created_ids [resp] ++ created_ids resps.
Proof. destruct resp; reflexivity. Qed.

(** The ids handed out while serving [reqs] continue the count of the
    stored tasks, as long as the slice length stays an [int]. *)
Lemma serve_created_ids (reqs : list Request) :
  forall s : Registry,
  ids_in_order s ->
  Z.of_nat (length (tasks (fst (serve reqs s)))) <= max_int ->
  ids_in_order (fst (serve reqs s))
  /\ created_ids (snd (serve reqs s))
     = seqZ (Z.of_nat (length (tasks s)) + 1)
            (Z.of_nat (length (tasks (fst (serve reqs s))))
             - Z.of_nat (length (tasks s))).
Proof.
  induction reqs as [|r reqs IH]; intros s Hs Hlen.
  - simpl. split; [exact Hs|]. rewrite seqZ_nil by lia. reflexivity.
  - rewrite serve_cons in *. simpl fst in *. simpl snd.
    pose proof (serve_length_mono reqs (fst (route r s))) as Hmono.
    destruct (add_or_not r) as [[req ->]|Hr].
    + change (route (ReqAddTask (Some req)) s) with (addTask (Some req) s) in *.
      destruct (addTask_ids_in_order req s Hs) as [Hs1 Hresp]; [lia|].
      destruct (IH _ Hs1 Hlen) as [HsF Hids]. split; [exact HsF|].
      rewrite Hresp. cbn [created_ids respID]. rewrite Hids.
      assert (length (tasks (fst (addTask (Some req) s))) = S (length (tasks s))) as Hl1.
      { simpl. rewrite length_app. simpl. lia. }
      rewrite Hl1 in *.
      rewrite (seqZ_cons (Z.of_nat (length (tasks s)) + 1)) by lia.
      f_equal. f_equal; lia.
    + destruct (route_keeps_ids r s Hr) as (Hids1 & Hc1 & Hnone).
      pose proof (same_ids_same_length _ _ Hids1) as Hl1.
      assert (ids_in_order (fst (route r s))) as Hs1.
      { destruct Hs as [Hc Hids]. split; [rewrite Hc1, Hl1; exact Hc|].
        rewrite Hids1, Hl1. exact Hids. }
      destruct (IH _ Hs1 Hlen) as [HsF Hids]. split; [exact HsF|].
      rewrite created_ids_cons, Hnone, Hids, Hl1. reflexivity.
Qed.

Lemma init_ids_in_order : ids_in_order init_registry.
Proof. split; reflexivity. Qed.

(** C3. Serve any sequence of requests since process start, and let the
    task slice keep a length that fits an [int] (as every Go slice does).
    The ids that the [addTask] calls of the sequence returned are, in the
    order of the calls, strictly increasing; each is positive; and no id
    occurs twice, so that no later call returns an id that an earlier call
    returned. *)
Theorem addTask_ids_unique_increasing (reqs : list Request) :
  Z.of_nat (length (tasks (registry_after reqs))) <= max_int ->
  let ids := created_ids (responses_to reqs) in
  (forall (i j : nat) (a b : Z),
      (i < j)%nat -> ids !! i = Some a -> ids !! j = Some b -> a < b)
  /\ Forall (fun id => 0 < id) ids
  /\ NoDup ids.
Proof.
  intros Hlen ids.
  destruct (serve_created_ids reqs init_registry init_ids_in_order Hlen) as [_ Hids].
  fold (responses_to reqs) in Hids. fold ids in Hids.
  simpl in Hids. rewrite Hids. clear Hids ids.
  split; [|split].
  - intros i j a b Hij Ha Hb.
    apply lookup_seqZ in Ha as [-> _]. apply lookup_seqZ in Hb as [-> _]. lia.
  - apply Forall_seqZ. intros k Hk. lia.
  - apply NoDup_seqZ.
Qed.

Lemma addTask_ids_unique_increasing_witness :
  let reqs := [ create "1+1"; ReqGetTaskForExecution 5; create "2*3";
                ReqHandleResult (Some (mkTask 1 "1+1" "completed" 2%float 5));
                create "8/4" ] in
  created_ids (responses_to reqs) = [1; 2; 3]
  /\ (forall (i j : nat) (a b : Z),
         (i < j)%nat ->
         created_ids (responses_to reqs) !! i = Some a ->
         created_ids (responses_to reqs) !! j = Some b -> a < b)
  /\ Forall (fun id => 0 < id) (created_ids (responses_to reqs))
  /\ NoDup (created_ids (responses_to reqs)).
Proof.
  split; [reflexivity|].
  apply (addTask_ids_unique_increasing
           [ create "1+1"; ReqGetTaskForExecution 5; create "2*3";
             ReqHandleResult (Some (mkTask 1 "1+1" "completed" 2%float 5));
             create "8/4" ]).
  vm_compute. discriminate.
Defined.

(** ** [strconv.Itoa] *)

Lemma to_uint_not_Nil (p : positive) : Pos.to_uint p <> Decimal.Nil.
Proof. apply DecimalPos.Unsigned.to_uint_nonnil. Qed.

Lemma Itoa_parses (i : Z) : NilZero.int_of_string (Itoa i) = Some (Z.to_int i).
Proof.
  unfold Itoa. apply NilZero.isi.
  - destruct i as [|p|p]; simpl; try discriminate.
    intros [= H]. exact (to_uint_not_Nil p H).
  - destruct i as [|p|p]; simpl; try discriminate.
    intros [= H]. exact (to_uint_not_Nil p H).
Qed.

Lemma Itoa_inj (i j : Z) : Itoa i = Itoa j -> i = j.
Proof.
  intros H. apply DecimalZ.to_int_inj.
  pose proof (Itoa_parses i) as Hi. rewrite H, Itoa_parses in Hi. congruence.
Qed.

(** ** The loop of [getTaskStatus] *)

Lemma status_loop_no_match (taskID : string) (l : list Task) :
  Forall (fun t => Itoa (ID t) <> taskID) l -> status_loop taskID l = None.
Proof.
  induction l as [|t l IH]; intros H; simpl; [reflexivity|].
  inversion H as [|? ? Ht Hl]; subst.
  destruct (String.eqb_spec (Itoa (ID t)) taskID) as [He|_]; [contradiction|].
  apply IH. exact Hl.
Qed.

Lemma status_loop_first (taskID : string) (l1 : list Task) (t : Task) (l2 : list Task) :
  Forall (fun t' => Itoa (ID t') <> taskID) l1 -> Itoa (ID t) = taskID ->
  status_loop taskID (l1 ++ t :: l2) = Some t.
Proof.
  intros Hl1 Ht. induction l1 as [|a l1 IH]; simpl.
  - rewrite Ht, String.eqb_refl. reflexivity.
  - inversion Hl1 as [|? ? Ha Hl1']; subst.
    destruct (String.eqb_spec (Itoa (ID a)) (Itoa (ID t))) as [He|_]; [contradiction|].
    apply IH. exact Hl1'.
Qed.

Lemma status_loop_some (taskID : string) (l : list Task) (t : Task) :
  status_loop taskID l = Some t -> t ∈ l /\ Itoa (ID t) = taskID.
Proof.
  induction l as [|a l IH]; simpl; [discriminate|].
  destruct (String.eqb_spec (Itoa (ID a)) taskID) as [He|_].
  - intros [= <-]. split; [apply elem_of_cons; left; reflexivity | exact He].
  - intros H. destruct (IH H) as [Hin Hid].
    split; [apply elem_of_cons; right; exact Hin | exact Hid].
Qed.

(** C7. In the registry reached by any sequence of requests since process
    start, with room for one more task in the slice, [addTask] with the
    expression [e] returns an id, and [getTaskStatus] with the decimal
    rendering of this id, run right after, returns the task with this id,
    the expression [e], status "pending", the zero result and the zero start
    time (no result, no start time). *)
Theorem addTask_getTaskStatus_roundtrip (reqs : list Request) (e : string) :
  let s := registry_after reqs in
  Z.of_nat (length (tasks s)) < max_int ->
  exists (id : Z) (s1 : Registry),
    addTask (Some (mkTaskRequest e)) s = (s1, OkTaskResponse (mkTaskResponse id))
    /\ getTaskStatus (Itoa id) s1
       = (s1, OkTask (mkTask id e "pending" zero_float zero_time)).
Proof.
  intros s Hlen.
  pose proof (serve_length_mono reqs init_registry) as Hmono.
  destruct (serve_created_ids reqs init_registry init_ids_in_order) as [[Hc Hids] _].
  { fold (registry_after reqs). fold s. lia. }
  fold (registry_after reqs) in Hc, Hids. fold s in Hc, Hids.
  eexists _, _. split; [reflexivity|].
  unfold getTaskStatus. simpl tasks.
  assert (wrap_int (taskIDCounter s + 1) = Z.of_nat (length (tasks s)) + 1) as Hw.
  { rewrite Hc. apply wrap_int_small. unfold min_int, int_bits. lia. }
  rewrite status_loop_first; [reflexivity| |reflexivity].
  apply Forall_lookup. intros i t Hi. simpl. intros Heq.
  apply Itoa_inj in Heq. rewrite Hw in Heq.
  assert ((ID <$> tasks s) !! i = Some (ID t)) as Hid.
  { rewrite list_lookup_fmap, Hi. reflexivity. }
  rewrite Hids in Hid. apply lookup_seqZ in Hid as [Hid Hlt]. lia.
Qed.

Lemma addTask_getTaskStatus_roundtrip_witness :
  let s := registry_after [create "2*3"; ReqGetTaskForExecution 5] in
  exists (id : Z) (s1 : Registry),
    addTask (Some (mkTaskRequest "1+1")) s = (s1, OkTaskResponse (mkTaskResponse id))
    /\ getTaskStatus (Itoa id) s1
       = (s1, OkTask (mkTask id "1+1" "pending" zero_float zero_time)).
Proof.
  apply (addTask_getTaskStatus_roundtrip [create "2*3"; ReqGetTaskForExecution 5] "1+1").
  vm_compute. reflexivity.
Defined.

(** ** The life cycle of a task *)

Lemma stays_or_starts_refl (t : Task) : stays_or_starts t t.
Proof. left. reflexivity. Qed.

Lemma stays_or_starts_trans (t1 t2 t3 : Task) :
  stays_or_starts t1 t2 -> stays_or_starts t2 t3 -> stays_or_starts t1 t3.
Proof.
  unfold stays_or_starts. intros [H12|[H1 H2]] [H23|[H2' H3]].
  - left. congruence.
  - right. split; congruence.
  - right. split; congruence.
  - rewrite H2 in H2'. discriminate.
Qed.

Lemma lookup_replace_middle {A : Type} (l1 : list A) (x y : A) (l2 : list A) :
  forall (i : nat) (a : A),
  (l1 ++ x :: l2) !! i = Some a ->
  (l1 ++ y :: l2) !! i = Some a \/ (a = x /\ (l1 ++ y :: l2) !! i = Some y).
Proof.
  induction l1 as [|b l1 IH]; intros [|i] a; simpl.
  - intros [= <-]. right. split; reflexivity.
  - intros H. left. exact H.
  - intros H. left. exact H.
  - apply IH.
Qed.

Lemma getTaskForExecution_status (now : Time) (s : Registry) (i : nat) (t : Task) :
  tasks s !! i = Some t ->
  exists t', tasks (fst (getTaskForExecution now s)) !! i = Some t'
             /\ stays_or_starts t t'.
Proof.
  intros Hi. destruct (not_pending_dec (tasks s)) as [Hall|Hn].
  - rewrite (getTaskForExecution_empty now s Hall). simpl.
    exists t. split; [exact Hi | apply stays_or_starts_refl].
  - destruct (first_pending_split _ Hn) as (l1 & t0 & l2 & Hs & Hl1 & Ht0).
    rewrite (getTaskForExecution_split now s l1 t0 l2 Hs Hl1 Ht0). simpl.
    rewrite Hs in Hi.
    destruct (lookup_replace_middle l1 t0
                (set_StartTime now (set_Status "in_progress" t0)) l2 i t Hi)
      as [H|[-> H]].
    + exists t. split; [exact H | apply stays_or_starts_refl].
    + eexists. split; [exact H|]. right. split; [exact Ht0 | reflexivity].
Qed.

Lemma route_status (r : Request) (s : Registry) (i : nat) (t : Task) :
  is_report r = false ->
  tasks s !! i = Some t ->
  exists t', tasks (fst (route r s)) !! i = Some t' /\ stays_or_starts t t'.
Proof.
  intros Hr Hi. destruct r as [[req|] | taskID | | now | body]; simpl in *.
  - exists t. split; [|apply stays_or_starts_refl].
    rewrite lookup_app_l; [exact Hi | apply lookup_lt_Some in Hi; exact Hi].
  - exists t. split; [exact Hi | apply stays_or_starts_refl].
  - unfold getTaskStatus. destruct (status_loop taskID (tasks s)); simpl;
      (exists t; split; [exact Hi | apply stays_or_starts_refl]).
  - exists t. split; [exact Hi | apply stays_or_starts_refl].
  - apply getTaskForExecution_status. exact Hi.
  - discriminate.
Qed.

Lemma serve_status (reqs : list Request) :
  forall (s : Registry) (i : nat) (t : Task),
  Forall (fun r => is_report r = false) reqs ->
  tasks s !! i = Some t ->
  exists t', tasks (fst (serve reqs s)) !! i = Some t' /\ stays_or_starts t t'.
Proof.
  induction reqs as [|r reqs IH]; intros s i t Hreqs Hi.
  - exists t. split; [exact Hi | apply stays_or_starts_refl].
  - inversion Hreqs as [|? ? Hr Hreqs']; subst.
    rewrite serve_cons. simpl fst.
    destruct (route_status r s i t Hr Hi) as (t1 & Hi1 & H1).
    destruct (IH _ i t1 Hreqs' Hi1) as (t2 & Hi2 & H2).
    exists t2. split; [exact Hi2 | exact (stays_or_starts_trans _ _ _ H1 H2)].
Qed.

(** C5, as stated, fails: [handleResult] stores whatever record the client
    posts.  After one task is created and handed out its stored status is
    "in_progress"; posting a record with the same id and status "pending"
    puts the stored status back to "pending", which is no advance. *)
Lemma handleResult_regresses_status :
  let reqs := [create "1+1"; ReqGetTaskForExecution 1000] in
  let posted := mkTask 1 "1+1" "pending" zero_float zero_time in
  Status <$> tasks (registry_after reqs) !! 0%nat = Some "in_progress"
  /\ Status <$> tasks (registry_after (reqs ++ [ReqHandleResult (Some posted)])) !! 0%nat
     = Some "pending"
  /\ status_advances "in_progress" "pending" = false.
Proof. repeat split. Qed.

(** The case without reports.  Every task that [addTask] appends has status
    "pending".  In the registry reached by any sequence of requests since
    process start, any further requests none of which is a [handleResult]
    keep every stored task at its index, and its status either stays what it
    was or has gone from "pending" to "in_progress". *)
Theorem status_advances_without_handleResult
    (reqs1 reqs2 : list Request) (i : nat) (t : Task) :
  Forall (fun r => is_report r = false) reqs2 ->
  tasks (registry_after reqs1) !! i = Some t ->
  (exists t', tasks (registry_after (reqs1 ++ reqs2)) !! i = Some t'
              /\ (Status t' = Status t
                  \/ (Status t = "pending" /\ Status t' = "in_progress")))
  /\ (forall (req : TaskRequest) (s : Registry),
        exists t0, tasks (fst (addTask (Some req) s)) = tasks s ++ [t0]
                   /\ Status t0 = "pending").
Proof.
  intros Hreqs Hi. split.
  - unfold registry_after. rewrite serve_app. simpl fst.
    apply (serve_status reqs2 _ i t Hreqs Hi).
  - intros req s. eexists. split; reflexivity.
Qed.

Lemma status_advances_without_handleResult_witness :
  let reqs1 := [create "1+1"; create "2*3"] in
  let reqs2 := [ReqGetTaskForExecution 1000; create "8/4"; ReqGetTaskStatus "1"] in
  let t := mkTask 1 "1+1" "pending" zero_float zero_time in
  (exists t', tasks (registry_after (reqs1 ++ reqs2)) !! 0%nat = Some t'
              /\ (Status t' = Status t
                  \/ (Status t = "pending" /\ Status t' = "in_progress")))
  /\ (forall (req : TaskRequest) (s : Registry),
        exists t0, tasks (fst (addTask (Some req) s)) = tasks s ++ [t0]
                   /\ Status t0 = "pending").
Proof.
  apply (status_advances_without_handleResult
           [create "1+1"; create "2*3"]
           [ReqGetTaskForExecution 1000; create "8/4"; ReqGetTaskStatus "1"]
           0%nat (mkTask 1 "1+1" "pending" zero_float zero_time)).
  - repeat constructor.
  - reflexivity.
Defined.

(** *** Reports that advance *)

Lemma status_advances_refl (a : string) :
  status_rank a <> None -> status_advances a a = true.
Proof.
  unfold status_advances. destruct (status_rank a) as [x|]; [|congruence].
  intros _. apply Nat.leb_refl.
Qed.

Lemma status_advances_trans (a b c : string) :
  status_advances a b = true -> status_advances b c = true ->
  status_advances a c = true.
Proof.
  unfold status_advances.
  destruct (status_rank a) as [x|], (status_rank b) as [y|], (status_rank c) as [z|];
    try discriminate.
  intros H1 H2. apply Nat.leb_le in H1, H2. apply Nat.leb_le. lia.
Qed.

Lemma status_advances_known (a b : string) :
  status_advances a b = true -> status_rank a <> None /\ status_rank b <> None.
Proof.
  unfold status_advances.
  destruct (status_rank a), (status_rank b); try discriminate.
  intros _. split; discriminate.
Qed.

Lemma stays_or_starts_advances (t t' : Task) :
  status_rank (Status t) <> None -> stays_or_starts t t' ->
  status_advances (Status t) (Status t') = true.
Proof.
  intros Hk [->|[-> ->]]; [apply status_advances_refl; exact Hk | reflexivity].
Qed.

Lemma first_with_id_split (id : Z) (l1 l2 : list Task) (t : Task) :
  Forall (fun t' => ID t' <> id) l1 -> ID t = id ->
  first_with_id id (l1 ++ t :: l2) = Some t.
Proof.
  intros Hl1 Ht. unfold first_with_id.
  induction l1 as [|a l1 IH]; simpl.
  - rewrite Ht, Z.eqb_refl. reflexivity.
  - inversion Hl1 as [|? ? Ha Hl1']; subst.
    destruct (Z.eqb_spec (ID a) (ID t)) as [He|_]; [contradiction|].
    apply IH. exact Hl1'.
Qed.

(** One request whose report, if it is one, advances: every stored task
    stays at its index with a status that is not behind the one it had, and
    the stored statuses stay among pending, in_progress, completed. *)
Lemma route_advances (r : Request) (s : Registry) :
  report_advances r s = true -> known_statuses s ->
  known_statuses (fst (route r s))
  /\ forall (i : nat) (t : Task), tasks s !! i = Some t ->
       exists t', tasks (fst (route r s)) !! i = Some t'
                  /\ status_advances (Status t) (Status t') = true.
Proof.
  intros Hr Hk.
  assert (Hsame : forall (i : nat) (t : Task), tasks s !! i = Some t ->
            exists t', tasks s !! i = Some t'
                       /\ status_advances (Status t) (Status t') = true).
  { intros i t Hi. exists t. split; [exact Hi|]. apply status_advances_refl.
    eapply Forall_lookup in Hk; [exact Hk | exact Hi]. }
  destruct (is_report r) eqn:Erep.
  - destruct r as [ | | | | [task|]]; try discriminate; simpl in Hr.
    + destruct (id_match_dec (ID task) (tasks s))
        as [Hall | (l1 & t0 & l2 & Hs & Hl1 & Ht0)].
      * change (route (ReqHandleResult (Some task)) s) with (handleResult (Some task) s).
        rewrite (handleResult_no_match task s Hall). simpl. split; assumption.
      * change (route (ReqHandleResult (Some task)) s) with (handleResult (Some task) s).
        rewrite (handleResult_split task s l1 t0 l2 Hs Hl1 Ht0). simpl.
        rewrite Hs, (first_with_id_split _ l1 l2 t0 Hl1 Ht0) in Hr.
        destruct (status_advances_known _ _ Hr) as [_ Hknew].
        unfold known_statuses in Hk. rewrite Hs in Hk.
        apply Forall_app in Hk as [Hk1 Hk2]. inversion Hk2 as [|? ? Hk0 Hk2']; subst.
        split.
        -- apply Forall_app. split; [exact Hk1|]. constructor; assumption.
        -- intros i t Hi. rewrite Hs in Hi.
           destruct (lookup_replace_middle l1 t0 task l2 i t Hi) as [H|[-> H]].
           ++ exists t. split; [exact H|]. apply status_advances_refl.
              assert (Hall0 : Forall (fun t => status_rank (Status t) <> None)
                                (l1 ++ t0 :: l2)).
              { apply Forall_app. split; [exact Hk1 | constructor; assumption]. }
              exact (proj1 (Forall_lookup _ _) Hall0 i t Hi).
           ++ exists task. split; [exact H | exact Hr].
    + simpl. split; assumption.
  - split.
    + apply Forall_lookup. intros i t' Hi'.
      destruct (tasks s !! i) as [t|] eqn:Hi.
      * destruct (route_status r s i t Erep Hi) as (t'' & Hi'' & Hss).
        assert (t'' = t') as -> by congruence.
        assert (status_rank (Status t) <> None) as Hkt.
        { eapply Forall_lookup in Hk; [exact Hk | exact Hi]. }
        exact (proj2 (status_advances_known _ _ (stays_or_starts_advances t t' Hkt Hss))).
      * destruct (add_or_not r) as [[req ->]|Hnadd].
        -- simpl in Hi'. rewrite lookup_app_r in Hi' by (apply lookup_ge_None; exact Hi).
           destruct (i - length (tasks s))%nat; [|destruct n; discriminate].
           simpl in Hi'. injection Hi' as <-. simpl. discriminate.
        -- destruct (route_keeps_ids r s Hnadd) as (Hids & _).
           apply same_ids_same_length in Hids.
           apply lookup_ge_None in Hi. apply lookup_lt_Some in Hi'. lia.
    + intros i t Hi.
      destruct (route_status r s i t Erep Hi) as (t' & Hi' & Hss).
      exists t'. split; [exact Hi'|].
      apply stays_or_starts_advances; [|exact Hss].
      eapply Forall_lookup in Hk; [exact Hk | exact Hi].
Qed.

Lemma serve_advances (reqs : list Request) :
  forall s : Registry,
  reports_advance reqs s = true -> known_statuses s ->
  known_statuses (fst (serve reqs s))
  /\ forall (i : nat) (t : Task), tasks s !! i = Some t ->
       exists t', tasks (fst (serve reqs s)) !! i = Some t'
                  /\ status_advances (Status t) (Status t') = true.
Proof.
  induction reqs as [|r reqs IH]; intros s Hadv Hk.
  - simpl. split; [exact Hk|]. intros i t Hi. exists t. split; [exact Hi|].
    apply status_advances_refl. eapply Forall_lookup in Hk; [exact Hk | exact Hi].
  - simpl in Hadv. apply andb_true_iff in Hadv as [Hr Hrest].
    rewrite serve_cons. simpl fst.
    destruct (route_advances r s Hr Hk) as [Hk1 Hstep].
    destruct (IH _ Hrest Hk1) as [Hk2 Hsteps].
    split; [exact Hk2|]. intros i t Hi.
    destruct (Hstep i t Hi) as (t1 & Hi1 & H1).
    destruct (Hsteps i t1 Hi1) as (t2 & Hi2 & H2).
    exists t2. split; [exact Hi2 | exact (status_advances_trans _ _ _ H1 H2)].
Qed.

Lemma reports_advance_app (reqs1 reqs2 : list Request) (s : Registry) :
  reports_advance (reqs1 ++ reqs2) s
  = reports_advance reqs1 s && reports_advance reqs2 (fst (serve reqs1 s)).
Proof.
  revert s. induction reqs1 as [|r reqs1 IH]; intros s; [reflexivity|].
  rewrite <- app_comm_cons, serve_cons. cbn [reports_advance fst].
  rewrite IH. destruct (report_advances r s); reflexivity.
Qed.

(** C5, amended.  Serve any sequence of requests since process start in
    which every [handleResult] that replaces a stored record posts a status
    that is not behind the stored one in the order pending, in_progress,
    completed.  Then every stored task keeps its index, and its status after
    any later part of the sequence is not behind its status before that
    part: a status only advances pending → in_progress → completed and
    never regresses.  Every task that [addTask] appends has status
    "pending". *)
Theorem status_only_advances (reqs1 reqs2 : list Request) (i : nat) (t : Task) :
  reports_advance (reqs1 ++ reqs2) init_registry = true ->
  tasks (registry_after reqs1) !! i = Some t ->
  (exists t', tasks (registry_after (reqs1 ++ reqs2)) !! i = Some t'
              /\ status_advances (Status t) (Status t') = true)
  /\ (forall (req : TaskRequest) (s : Registry),
        exists t0, tasks (fst (addTask (Some req) s)) = tasks s ++ [t0]
                   /\ Status t0 = "pending").
Proof.
  intros Hadv Hi. split.
  - rewrite reports_advance_app in Hadv. apply andb_true_iff in Hadv as [H1 H2].
    destruct (serve_advances reqs1 init_registry H1) as [Hk1 _]; [constructor|].
    unfold registry_after. rewrite serve_app. simpl fst.
    destruct (serve_advances reqs2 _ H2 Hk1) as [_ Hsteps].
    exact (Hsteps i t Hi).
  - intros req s. eexists. split; reflexivity.
Qed.

Lemma status_only_advances_witness :
  let reqs1 := [create "1+1"; create "2*3"; ReqGetTaskForExecution 1000] in
  let reqs2 := [ ReqHandleResult (Some (mkTask 1 "1+1" "completed" 2%float 1000));
                 ReqGetTaskForExecution 1001;
                 ReqHandleResult (Some (mkTask 2 "2*3" "in_progress" zero_float 1001));
                 ReqHandleResult (Some (mkTask 7 "8/4" "pending" zero_float zero_time));
                 create "8/4" ] in
  let t := mkTask 1 "1+1" "in_progress" zero_float 1000 in
  (exists t', tasks (registry_after (reqs1 ++ reqs2)) !! 0%nat = Some t'
              /\ status_advances (Status t) (Status t') = true)
  /\ (forall (req : TaskRequest) (s : Registry),
        exists t0, tasks (fst (addTask (Some req) s)) = tasks s ++ [t0]
                   /\ Status t0 = "pending").
Proof.
  apply (status_only_advances
           [create "1+1"; create "2*3"; ReqGetTaskForExecution 1000]
           [ ReqHandleResult (Some (mkTask 1 "1+1" "completed" 2%float 1000));
             ReqGetTaskForExecution 1001;
             ReqHandleResult (Some (mkTask 2 "2*3" "in_progress" zero_float 1001));
             ReqHandleResult (Some (mkTask 7 "8/4" "pending" zero_float zero_time));
             create "8/4" ]
           0%nat (mkTask 1 "1+1" "in_progress" zero_float 1000)).
  - vm_compute. reflexivity.
  - reflexivity.
Defined.

(** The report of the counterexample is one that the condition rules out,
    and the reports of a worker that completes what it was handed pass. *)
Example reports_advance_examples :
  reports_advance [ create "1+1"; ReqGetTaskForExecution 1000;
                    ReqHandleResult (Some (mkTask 1 "1+1" "pending" zero_float zero_time)) ]
                  init_registry = false
  /\ reports_advance [ create "1+1"; ReqGetTaskForExecution 1000;
                       ReqHandleResult (Some (mkTask 1 "1+1" "completed" 2%float 1000)) ]
                     init_registry = true.
Proof. split; reflexivity. Qed.

(** ** The shape of what [Itoa] prints *)

Lemma has_char_append (c : ascii) (s1 s2 : string) :
  has_char c (String.append s1 s2) = has_char c s1 || has_char c s2.
Proof.
  induction s1 as [|a s1 IH]; simpl; [reflexivity|].
  rewrite IH. apply orb_assoc.
Qed.

Lemma digits_no_space_no_plus (d : Decimal.uint) :
  has_char " " (NilEmpty.string_of_uint d) = false
  /\ has_char "+" (NilEmpty.string_of_uint d) = false.
Proof. induction d; simpl; tauto. Qed.

Lemma Itoa_no_space_no_plus (i : Z) :
  has_char " " (Itoa i) = false /\ has_char "+" (Itoa i) = false.
Proof.
  unfold Itoa.
  destruct i as [|p|p]; simpl; [split; reflexivity| |];
    destruct (Pos.to_uint p) eqn:E; simpl;
    try (split; reflexivity);
    try (apply (digits_no_space_no_plus u)).
Qed.

Lemma Itoa_not_empty (i : Z) : Itoa i <> "".
Proof.
  unfold Itoa. destruct i as [|p|p]; simpl; try discriminate.
  destruct (Pos.to_uint p); discriminate.
Qed.

Lemma to_uint_normal (p : positive) : Decimal.unorm (Pos.to_uint p) = Pos.to_uint p.
Proof.
  rewrite <- DecimalPos.Unsigned.to_of, DecimalPos.Unsigned.of_to. reflexivity.
Qed.

Lemma to_uint_no_leading_zero (p : positive) (u : Decimal.uint) :
  Pos.to_uint p <> Decimal.D0 u.
Proof.
  intros H. pose proof (to_uint_normal p) as Hn. rewrite H in Hn.
  rewrite DecimalFacts.unorm_D0 in Hn.
  assert (Hu : u <> Decimal.Nil).
  { intros ->. apply (DecimalPos.Unsigned.to_uint_nonzero p). exact H. }
  pose proof (DecimalFacts.nb_digits_unorm u Hu) as Hd.
  rewrite Hn in Hd. simpl in Hd. lia.
Qed.

Lemma Itoa_leading_zero (i : Z) (rest : string) :
  Itoa i = String "0" rest -> rest = "".
Proof.
  unfold Itoa. destruct i as [|p|p]; simpl.
  - intros [= <-]. reflexivity.
  - destruct (Pos.to_uint p) as [|u|u|u|u|u|u|u|u|u|u] eqn:E; simpl;
      try discriminate.
    + intros [= <-]. reflexivity.
    + exfalso. exact (to_uint_no_leading_zero p u E).
  - discriminate.
Qed.

(** None of the other renderings of [i] is printed by [Itoa], for any
    number. *)
Lemma noncanonical_not_printed (i j : Z) (q : string) :
  q ∈ noncanonical_forms i -> Itoa j <> q.
Proof.
  unfold noncanonical_forms. intros Hq Hj.
  destruct (Itoa_no_space_no_plus j) as [Hsp Hpl].
  repeat (apply elem_of_cons in Hq as [-> | Hq]).
  - simpl in Hj. apply Itoa_leading_zero in Hj. exact (Itoa_not_empty i Hj).
  - rewrite Hj in Hpl. simpl in Hpl. discriminate.
  - rewrite Hj in Hsp. simpl in Hsp. discriminate.
  - rewrite Hj, has_char_append in Hsp. simpl in Hsp.
    rewrite orb_true_r in Hsp. discriminate.
  - apply elem_of_nil in Hq. destruct Hq.
Qed.

(** C10. [getTaskStatus] compares the query string itself, character for
    character, with the id of each stored task as [Itoa] prints it, in the
    order of the slice: the answer is the first stored task whose printed
    id is the query, wherever in the slice it stands, and an answer is
    always such a task.  A query that is the printed form of no stored id
    gets [NotFound]; so does, for every stored task, a query that writes
    its id with a leading zero, with a plus sign, or with a space before or
    after, although a task with that number is stored. *)
Theorem getTaskStatus_compares_rendering (s : Registry) :
  (forall (taskID : string) (t : Task),
      getTaskStatus taskID s = (s, OkTask t) -> t ∈ tasks s /\ Itoa (ID t) = taskID)
  /\ (forall (taskID : string) (l1 : list Task) (t : Task) (l2 : list Task),
        tasks s = l1 ++ t :: l2 ->
        Forall (fun t' => Itoa (ID t') <> taskID) l1 ->
        Itoa (ID t) = taskID ->
        getTaskStatus taskID s = (s, OkTask t))
  /\ (forall taskID : string,
        (forall t, t ∈ tasks s -> Itoa (ID t) <> taskID) ->
        getTaskStatus taskID s = (s, NotFound))
  /\ (forall (t : Task) (taskID : string),
        t ∈ tasks s -> taskID ∈ noncanonical_forms (ID t) ->
        getTaskStatus taskID s = (s, NotFound)).
Proof.
  split; [|split; [|split]].
  - intros taskID t. unfold getTaskStatus.
    destruct (status_loop taskID (tasks s)) as [t'|] eqn:E; [|discriminate].
    intros [= <-]. apply (status_loop_some _ _ _ E).
  - intros taskID l1 t l2 Hs Hl1 Ht. unfold getTaskStatus.
    rewrite Hs, (status_loop_first taskID l1 t l2 Hl1 Ht). reflexivity.
  - intros taskID Hno. unfold getTaskStatus.
    rewrite status_loop_no_match; [reflexivity|].
    apply Forall_forall. exact Hno.
  - intros t taskID _ Hq. unfold getTaskStatus.
    rewrite status_loop_no_match; [reflexivity|].
    apply Forall_forall. intros t' _.
    apply (noncanonical_not_printed (ID t) (ID t') taskID Hq).
Qed.

Lemma getTaskStatus_compares_rendering_witness :
  let s := registry_after [create "1+1"; create "2*3"] in
  getTaskStatus "1" s = (s, OkTask (mkTask 1 "1+1" "pending" zero_float zero_time))
  /\ getTaskStatus "2" s = (s, OkTask (mkTask 2 "2*3" "pending" zero_float zero_time))
  /\ getTaskStatus "01" s = (s, NotFound)
  /\ getTaskStatus "+1" s = (s, NotFound)
  /\ getTaskStatus " 1" s = (s, NotFound)
  /\ getTaskStatus "1 " s = (s, NotFound)
  /\ getTaskStatus "3" s = (s, NotFound).
Proof.
  pose proof (getTaskStatus_compares_rendering
                (registry_after [create "1+1"; create "2*3"]))
    as (_ & Hfound & Hnone & Hforms).
  assert (Hin : mkTask 1 "1+1" "pending" zero_float zero_time
                ∈ tasks (registry_after [create "1+1"; create "2*3"])).
  { apply elem_of_cons. left. reflexivity. }
  split.
  { apply (Hfound "1" [] (mkTask 1 "1+1" "pending" zero_float zero_time)
             [mkTask 2 "2*3" "pending" zero_float zero_time]);
      [reflexivity | constructor | reflexivity]. }
  split.
  { apply (Hfound "2" [mkTask 1 "1+1" "pending" zero_float zero_time]
             (mkTask 2 "2*3" "pending" zero_float zero_time) []);
      [reflexivity | repeat constructor; vm_compute; discriminate | reflexivity]. }
  split; [apply (Hforms _ "01" Hin); apply elem_of_cons; left; reflexivity|].
  split; [apply (Hforms _ "+1" Hin); do 1 (apply elem_of_cons; right);
          apply elem_of_cons; left; reflexivity|].
  split; [apply (Hforms _ " 1" Hin); do 2 (apply elem_of_cons; right);
          apply elem_of_cons; left; reflexivity|].
  split; [apply (Hforms _ "1 " Hin); do 3 (apply elem_of_cons; right);
          apply elem_of_cons; left; reflexivity|].
  apply Hnone. intros t Ht. vm_compute in Ht.
  apply elem_of_cons in Ht as [-> | Ht]; [vm_compute; discriminate|].
  apply elem_of_cons in Ht as [-> | Ht]; [vm_compute; discriminate|].
  apply elem_of_nil in Ht. destruct Ht.
Defined.

(** ** Concurrent [getTaskForExecution] handlers *)

(** *** The two assignments never make a task pending *)

Lemma settles_refl (l : list Task) : settles l l.
Proof. split; [reflexivity|]. intros i t Hi Ht. exists t. split; assumption. Qed.

Lemma settles_alter (f : Task -> Task) (k : nat) (l : list Task) :
  (forall t, not_pending t -> not_pending (f t)) -> settles l (alter f k l).
Proof.
  intros Hf. split; [apply length_alter|].
  intros i t Hi Ht. destruct (decide (k = i)) as [->|Hne].
  - exists (f t). rewrite list_lookup_alter_eq, Hi. split; [reflexivity | auto].
  - exists t. rewrite list_lookup_alter_ne by exact Hne. split; assumption.
Qed.

Lemma settles_set_Status (k : nat) (l : list Task) :
  settles l (alter (set_Status "in_progress") k l).
Proof. apply settles_alter. intros t _. unfold not_pending. simpl. discriminate. Qed.

Lemma settles_set_StartTime (now : Time) (k : nat) (l : list Task) :
  settles l (alter (set_StartTime now) k l).
Proof. apply settles_alter. intros t Ht. exact Ht. Qed.

Lemma settles_Forall (l l' : list Task) :
  settles l l' -> Forall not_pending l -> Forall not_pending l'.
Proof.
  intros [Hlen Hs] Hall. apply Forall_lookup. intros i t' Hi'.
  destruct (l !! i) as [t|] eqn:Hi.
  - destruct (Hs i t Hi) as (t'' & Hi'' & Hnp).
    + eapply Forall_lookup in Hall; [exact Hall | exact Hi].
    + congruence.
  - apply lookup_ge_None in Hi. apply lookup_lt_Some in Hi'. lia.
Qed.

Lemma settles_claimed (l0 l l' : list Task) (i : nat) (task : Task) :
  settles l l' -> claimed l0 l i task -> claimed l0 l' i task.
Proof.
  intros [_ Hs] (H0 & Hp & t' & Hi & Hnp).
  split; [exact H0|]. split; [exact Hp|]. apply (Hs i t' Hi Hnp).
Qed.

(** A worker outside the critical section keeps what is known about it
    when another worker writes. *)
Lemma worker_ok_stable (l0 l l' : list Task) (fj : nat) (w : Worker) :
  in_section w = false -> settles l l' ->
  worker_ok l0 l fj w -> worker_ok l0 l' fj w.
Proof.
  intros Hq Hs. destruct w as [| | | | | | |resp]; simpl in Hq; try discriminate.
  - intros _. exact I.
  - destruct resp; simpl; try tauto.
    + apply settles_claimed. exact Hs.
    + apply settles_Forall. exact Hs.
Qed.

(** *** Looking up a worker after one has moved *)

Lemma lookup_moved (ws : list Worker) (j j2 : nat) (w' w2 : Worker) :
  <[j := w']> ws !! j2 = Some w2 ->
  (j2 = j /\ w2 = w') \/ (j2 <> j /\ ws !! j2 = Some w2).
Proof.
  intros H. destruct (decide (j = j2)) as [->|Hne].
  - left. split; [reflexivity|].
    assert (j2 < length ws)%nat as Hlt.
    { apply lookup_lt_Some in H. rewrite length_insert in H. exact H. }
    rewrite list_lookup_insert_eq in H by exact Hlt. congruence.
  - right. rewrite list_lookup_insert_ne in H by exact Hne. split; [congruence | exact H].
Qed.

Lemma lookup_moved_self (ws : list Worker) (j : nat) (w w' : Worker) :
  ws !! j = Some w -> <[j := w']> ws !! j = Some w'.
Proof. intros H. apply list_lookup_insert_eq. apply lookup_lt_Some in H. exact H. Qed.

(** While one worker moves, every other worker is outside the critical
    section: it waits for the mutex or has returned. *)
Lemma others_outside (l0 : list Task) (f : nat -> nat) (c : Config)
    (j : nat) (now : Time) (w : Worker) (r : list Task * bool * Worker) :
  Inv l0 f c ->
  workers c !! j = Some w ->
  worker_step now (shared_tasks c) (mutex_locked c) w = Some r ->
  forall j2 w2, j2 <> j -> workers c !! j2 = Some w2 -> in_section w2 = false.
Proof.
  intros HI Hj Hstep j2 w2 Hne Hj2.
  destruct (in_section w2) eqn:E2; [|reflexivity]. exfalso.
  destruct (in_section w) eqn:E.
  - apply Hne. exact (inv_exclusive _ _ _ HI j2 j w2 w Hj2 Hj E2 E).
  - pose proof (inv_mutex _ _ _ HI) as Hm.
    destruct w; simpl in E; try discriminate; simpl in Hstep.
    destruct (mutex_locked c); [discriminate|].
    rewrite (Hm j2 w2 Hj2) in E2. discriminate.
Qed.

(** *** One worker moves: what has to be checked *)

Lemma move_inv (l0 : list Task) (f f' : nat -> nat) (c : Config) (j : nat)
    (w w' : Worker) (l' : list Task) (locked' : bool) :
  Inv l0 f c ->
  workers c !! j = Some w ->
  (forall j2 w2, j2 <> j -> workers c !! j2 = Some w2 -> in_section w2 = false) ->
  settles (shared_tasks c) l' ->
  (forall j2, j2 <> j -> f' j2 = f j2) ->
  (forall i t, l' !! i = Some t -> Status t = "pending" -> l0 !! i = Some t) ->
  (forall i t, l0 !! i = Some t -> Status t = "pending" ->
     shared_tasks c !! i = Some t ->
     l' !! i = Some t \/ (credited w' = Some t /\ f' j = i)) ->
  (forall t, credited w = Some t -> credited w' = Some t /\ f' j = f j) ->
  worker_ok l0 l' (f' j) w' ->
  locked' = in_section w' ->
  (credited w = None -> forall t1, credited w' = Some t1 ->
   forall j2 w2 t2, j2 <> j -> workers c !! j2 = Some w2 ->
     credited w2 = Some t2 -> f' j <> f j2) ->
  Inv l0 f' {| shared_tasks := l'; mutex_locked := locked';
               workers := <[j := w']> (workers c) |}.
Proof.
  intros HI Hj Hout Hset Hf Hnow Hstart Hcred Hok Hlock Hnew.
  assert (Hfresh : forall t1, credited w' = Some t1 ->
            forall j2 w2 t2, j2 <> j -> workers c !! j2 = Some w2 ->
              credited w2 = Some t2 -> f' j <> f j2).
  { intros t1 H1 j2 w2 t2 Hne Hj2 H2.
    destruct (credited w) as [t|] eqn:E.
    - destruct (Hcred t eq_refl) as [_ Hfj]. rewrite Hfj. intros Heq.
      apply Hne. symmetry.
      exact (inv_distinct _ _ _ HI j j2 w w2 t t2 Hj Hj2 E H2 Heq).
    - exact (Hnew eq_refl t1 H1 j2 w2 t2 Hne Hj2 H2). }
  constructor; simpl.
  - destruct Hset as [Hlen _]. rewrite Hlen. apply (inv_length _ _ _ HI).
  - exact Hnow.
  - intros i t H0 Hp.
    destruct (inv_pending_start _ _ _ HI i t H0 Hp) as [Hl | (j2 & w2 & Hj2 & Hc2 & Hf2)].
    + destruct (Hstart i t H0 Hp Hl) as [Hl' | [Hc' Hf']]; [left; exact Hl'|].
      right. exists j, w'. split; [exact (lookup_moved_self _ _ _ _ Hj)|]. tauto.
    + right. destruct (decide (j2 = j)) as [->|Hne].
      * assert (w2 = w) as -> by congruence.
        destruct (Hcred t Hc2) as [Hc' Hf'].
        exists j, w'. split; [exact (lookup_moved_self _ _ _ _ Hj)|].
        split; [exact Hc' | congruence].
      * exists j2, w2. rewrite list_lookup_insert_ne by congruence.
        rewrite (Hf j2 Hne). tauto.
  - intros j2 w2 Hj2. apply lookup_moved in Hj2 as [[-> ->] | [Hne Hj2]].
    + exact Hok.
    + rewrite (Hf j2 Hne).
      apply (worker_ok_stable l0 (shared_tasks c)); [exact (Hout j2 w2 Hne Hj2) | exact Hset |].
      exact (inv_workers _ _ _ HI j2 w2 Hj2).
  - intros j1 j2 w1 w2 H1 H2 E1 E2.
    apply lookup_moved in H1 as [[-> ->] | [Hne1 H1]];
      apply lookup_moved in H2 as [[-> ->] | [Hne2 H2]]; try reflexivity.
    + rewrite (Hout j2 w2 Hne2 H2) in E2. discriminate.
    + rewrite (Hout j1 w1 Hne1 H1) in E1. discriminate.
    + rewrite (Hout j2 w2 Hne2 H2) in E2. discriminate.
  - rewrite Hlock. destruct (in_section w') eqn:E.
    + exists j, w'. split; [exact (lookup_moved_self _ _ _ _ Hj) | exact E].
    + intros j2 w2 Hj2. apply lookup_moved in Hj2 as [[-> ->] | [Hne Hj2]];
        [exact E | exact (Hout j2 w2 Hne Hj2)].
  - intros j1 j2 w1 w2 t1 t2 H1 H2 C1 C2 Heq.
    apply lookup_moved in H1 as [[-> ->] | [Hne1 H1]];
      apply lookup_moved in H2 as [[-> ->] | [Hne2 H2]]; try reflexivity.
    + rewrite (Hf j2 Hne2) in Heq.
      destruct (Hfresh t1 C1 j2 w2 t2 Hne2 H2 C2 Heq).
    + rewrite (Hf j1 Hne1) in Heq. symmetry in Heq.
      destruct (Hfresh t2 C2 j1 w1 t1 Hne1 H1 C1 Heq).
    + rewrite (Hf j1 Hne1), (Hf j2 Hne2) in Heq.
      exact (inv_distinct _ _ _ HI j1 j2 w1 w2 t1 t2 H1 H2 C1 C2 Heq).
Qed.

Lemma section_holds_mutex (l0 : list Task) (f : nat -> nat) (c : Config)
    (j : nat) (w : Worker) :
  Inv l0 f c -> workers c !! j = Some w -> in_section w = true ->
  mutex_locked c = true.
Proof.
  intros HI Hj E. pose proof (inv_mutex _ _ _ HI) as Hm.
  destruct (mutex_locked c); [reflexivity|].
  rewrite (Hm j w Hj) in E. discriminate.
Qed.

(** A move that writes nothing to [tasks] and claims nothing. *)
Lemma move_inv_quiet (l0 : list Task) (f : nat -> nat) (c : Config) (j : nat)
    (w w' : Worker) (locked' : bool) :
  Inv l0 f c ->
  workers c !! j = Some w ->
  (forall j2 w2, j2 <> j -> workers c !! j2 = Some w2 -> in_section w2 = false) ->
  credited w = None -> credited w' = None ->
  worker_ok l0 (shared_tasks c) (f j) w' ->
  locked' = in_section w' ->
  Inv l0 f {| shared_tasks := shared_tasks c; mutex_locked := locked';
              workers := <[j := w']> (workers c) |}.
Proof.
  intros HI Hj Hout Hc Hc' Hok Hlock.
  apply (move_inv l0 f f c j w w'); try assumption.
  - apply settles_refl.
  - reflexivity.
  - apply (inv_pending_now _ _ _ HI).
  - intros i t _ _ Hl. left. exact Hl.
  - intros t Ht. congruence.
  - intros _ t1 Ht1. congruence.
Qed.

Lemma below_not_pending_all (l : list Task) (i : nat) :
  (length l <= i)%nat -> below_not_pending l i -> Forall not_pending l.
Proof.
  intros Hlen Hb. apply Forall_lookup. intros i' t Hi'.
  apply (Hb i' t); [|exact Hi']. apply lookup_lt_Some in Hi'. lia.
Qed.

Lemma below_not_pending_next (l : list Task) (i : nat) (task : Task) :
  l !! i = Some task -> not_pending task ->
  below_not_pending l i -> below_not_pending l (S i).
Proof.
  intros Hi Hnp Hb i' t Hlt Hi'.
  destruct (decide (i' = i)) as [->|Hne].
  - congruence.
  - apply (Hb i' t); [lia | exact Hi'].
Qed.

(** Every statement of every worker keeps the invariant. *)
Lemma step_worker_inv (l0 : list Task) (f : nat -> nat) (c c' : Config)
    (j : nat) (now : Time) :
  Inv l0 f c -> step_worker j now c = Some c' -> exists f', Inv l0 f' c'.
Proof.
  intros HI. unfold step_worker.
  destruct (workers c !! j) as [w|] eqn:Hj; [|discriminate].
  destruct (worker_step now (shared_tasks c) (mutex_locked c) w) as [[[l' locked'] w']|] eqn:Hstep;
    [|discriminate].
  intros [= <-].
  pose proof (others_outside l0 f c j now w _ HI Hj Hstep) as Hout.
  pose proof (inv_workers _ _ _ HI j w Hj) as Hok.
  destruct w as [|n i|n i task|i task|i task|task| |resp]; simpl in Hstep, Hok.
  - (* Lock *)
    destruct (mutex_locked c) eqn:Hm; [discriminate|]. injection Hstep as <- <- <-.
    exists f. apply (move_inv_quiet l0 f c j AtLock); try assumption; try reflexivity.
    simpl. split; [reflexivity|]. intros i' t Hlt. lia.
  - (* loop head *)
    destruct Hok as [-> Hb].
    pose proof (section_holds_mutex l0 f c j _ HI Hj eq_refl) as Hm.
    destruct (Nat.ltb_spec i (length (shared_tasks c))) as [Hlt|Hge].
    + destruct (shared_tasks c !! i) as [task|] eqn:Hi; [|discriminate].
      injection Hstep as <- <- <-.
      exists f. apply (move_inv_quiet l0 f c j (AtRange (length (shared_tasks c)) i));
        try assumption; try reflexivity.
      simpl. auto.
    + injection Hstep as <- <- <-.
      exists f. apply (move_inv_quiet l0 f c j (AtRange (length (shared_tasks c)) i));
        try assumption; try reflexivity.
      simpl. apply (below_not_pending_all _ i Hge Hb).
  - (* test *)
    destruct Hok as (-> & Hi & Hb).
    pose proof (section_holds_mutex l0 f c j _ HI Hj eq_refl) as Hm.
    destruct (String.eqb_spec (Status task) "pending") as [Hp|Hnp];
      injection Hstep as <- <- <-; exists f;
      apply (move_inv_quiet l0 f c j (AtTest (length (shared_tasks c)) i task));
      try assumption; try reflexivity; simpl.
    + auto.
    + split; [reflexivity|]. apply (below_not_pending_next _ i task Hi Hnp Hb).
  - (* tasks[i].Status = "in_progress" *)
    destruct Hok as [Hi Hp].
    pose proof (section_holds_mutex l0 f c j _ HI Hj eq_refl) as Hm.
    injection Hstep as <- <- <-.
    pose proof (inv_pending_now _ _ _ HI i task Hi Hp) as H0.
    exists (fun x => if decide (x = j) then i else f x).
    apply (move_inv l0 f _ c j (AtSetStatus i task)); try assumption.
    + apply settles_set_Status.
    + intros j2 Hne. destruct (decide (j2 = j)); [contradiction | reflexivity].
    + intros i2 t Hi2 Hpt. destruct (decide (i = i2)) as [->|Hne].
      * rewrite list_lookup_alter_eq, Hi in Hi2. injection Hi2 as <-.
        simpl in Hpt. discriminate.
      * rewrite list_lookup_alter_ne in Hi2 by exact Hne.
        exact (inv_pending_now _ _ _ HI i2 t Hi2 Hpt).
    + intros i2 t H02 Hpt Hl. destruct (decide (i = i2)) as [->|Hne].
      * right. simpl. destruct (decide (j = j)); [|contradiction].
        split; [congruence | reflexivity].
      * left. rewrite list_lookup_alter_ne by exact Hne. exact Hl.
    + simpl. discriminate.
    + simpl. destruct (decide (j = j)); [|contradiction].
      split; [reflexivity|]. split; [exact H0|]. split; [exact Hp|].
      exists (set_Status "in_progress" task).
      rewrite list_lookup_alter_eq, Hi. split; [reflexivity|].
      unfold not_pending. simpl. discriminate.
    + intros _ t1 _ j2 w2 t2 Hne Hj2 Hc2. destruct (decide (j = j)); [|contradiction].
      intros Heq.
      pose proof (inv_workers _ _ _ HI j2 w2 Hj2) as Hok2.
      assert (claimed l0 (shared_tasks c) (f j2) t2) as (_ & _ & t' & Ht' & Hnp').
      { destruct w2 as [| | | | | | |[]]; simpl in Hc2, Hok2; try discriminate;
          injection Hc2 as <-; tauto. }
      rewrite <- Heq, Hi in Ht'. injection Ht' as <-. contradiction.
  - (* tasks[i].StartTime = time.Now() *)
    destruct Hok as [Hfj Hcl].
    pose proof (section_holds_mutex l0 f c j _ HI Hj eq_refl) as Hm.
    injection Hstep as <- <- <-.
    exists f. apply (move_inv l0 f f c j (AtSetStartTime i task)); try assumption.
    + apply settles_set_StartTime.
    + reflexivity.
    + intros i2 t Hi2 Hpt. destruct (decide (i = i2)) as [->|Hne].
      * destruct Hcl as (_ & _ & t' & Ht' & Hnp'). rewrite Hfj in Ht'.
        rewrite list_lookup_alter_eq, Ht' in Hi2. injection Hi2 as <-.
        simpl in Hpt. contradiction.
      * rewrite list_lookup_alter_ne in Hi2 by exact Hne.
        exact (inv_pending_now _ _ _ HI i2 t Hi2 Hpt).
    + intros i2 t _ Hpt Hl. left. destruct (decide (i = i2)) as [->|Hne].
      * destruct Hcl as (_ & _ & t' & Ht' & Hnp'). rewrite Hfj in Ht'.
        assert (t' = t) as -> by congruence. contradiction.
      * rewrite list_lookup_alter_ne by exact Hne. exact Hl.
    + simpl. intros t [= <-]. split; reflexivity.
    + simpl. apply (settles_claimed l0 (shared_tasks c)); [apply settles_set_StartTime | exact Hcl].
    + simpl. discriminate.
  - (* Encode(task); return *)
    injection Hstep as <- <- <-.
    exists f. apply (move_inv l0 f f c j (AtEncode task)); try assumption.
    + apply settles_refl.
    + reflexivity.
    + apply (inv_pending_now _ _ _ HI).
    + intros i2 t _ _ Hl. left. exact Hl.
    + simpl. intros t [= <-]. split; reflexivity.
    + reflexivity.
    + simpl. discriminate.
  - (* http.NotFound(w, r); return *)
    injection Hstep as <- <- <-.
    exists f. apply (move_inv_quiet l0 f c j AtNotFound); try assumption; reflexivity.
  - discriminate.
Qed.

(** *** Reachable configurations *)

Lemma start_workers_inv (k : nat) (l0 : list Task) :
  Inv l0 (fun _ => 0%nat) (start_workers k l0).
Proof.
  constructor; simpl.
  - reflexivity.
  - intros i t Hi _. exact Hi.
  - intros i t Hi _. left. exact Hi.
  - intros j w Hj. apply lookup_replicate in Hj as [-> _]. exact I.
  - intros j1 j2 w1 w2 H1 _ E1. apply lookup_replicate in H1 as [-> _]. discriminate.
  - intros j w Hj. apply lookup_replicate in Hj as [-> _]. reflexivity.
  - intros j1 j2 w1 w2 t1 t2 H1 _ C1. apply lookup_replicate in H1 as [-> _]. discriminate.
Qed.

Lemma run_schedule_inv (l0 : list Task) (sched : list (nat * Time)) :
  forall c : Config,
  (exists f, Inv l0 f c) -> exists f, Inv l0 f (run_schedule sched c).
Proof.
  induction sched as [|[j now] sched IH]; intros c HI; simpl; [exact HI|].
  destruct (step_worker j now c) as [c'|] eqn:E.
  - apply IH. destruct HI as [f HI]. exact (step_worker_inv l0 f c c' j now HI E).
  - apply IH. exact HI.
Qed.

Lemma reachable_inv (l0 : list Task) (k : nat) (sched : list (nat * Time)) :
  exists f, Inv l0 f (run_schedule sched (start_workers k l0)).
Proof.
  apply run_schedule_inv. exists (fun _ => 0%nat). apply start_workers_inv.
Qed.

Lemma step_worker_length (j : nat) (now : Time) (c c' : Config) :
  step_worker j now c = Some c' -> length (workers c') = length (workers c).
Proof.
  unfold step_worker. destruct (workers c !! j) as [w|]; [|discriminate].
  destruct (worker_step now (shared_tasks c) (mutex_locked c) w) as [[[l' b'] w']|];
    [|discriminate].
  intros [= <-]. simpl. apply length_insert.
Qed.

Lemma run_schedule_length (sched : list (nat * Time)) :
  forall c : Config, length (workers (run_schedule sched c)) = length (workers c).
Proof.
  induction sched as [|[j now] sched IH]; intros c; simpl; [reflexivity|].
  destruct (step_worker j now c) as [c'|] eqn:E; rewrite IH; [|reflexivity].
  exact (step_worker_length j now c c' E).
Qed.

Lemma run_schedule_app (sched1 sched2 : list (nat * Time)) (c : Config) :
  run_schedule (sched1 ++ sched2) c = run_schedule sched2 (run_schedule sched1 c).
Proof.
  revert c. induction sched1 as [|[j now] sched1 IH]; intros c; simpl; [reflexivity|].
  destruct (step_worker j now c); apply IH.
Qed.

Lemma all_returned_lookup (c : Config) (j : nat) (w : Worker) :
  all_returned c = true -> workers c !! j = Some w -> exists resp, w = Returned resp.
Proof.
  unfold all_returned. intros Hall Hj.
  rewrite forallb_forall in Hall.
  assert (has_returned w = true) as Hw.
  { apply Hall. apply list_elem_of_In. apply (list_elem_of_lookup_2 _ j). exact Hj. }
  destruct w; try discriminate. eexists. reflexivity.
Qed.

(** *** Exactly one pending task *)

Lemma only_pending (l1 l2 : list Task) (t0 t : Task) (i : nat) :
  Forall not_pending l1 -> Forall not_pending l2 ->
  (l1 ++ t0 :: l2) !! i = Some t -> Status t = "pending" ->
  i = length l1 /\ t = t0.
Proof.
  intros H1 H2 Hi Hp.
  destruct (lt_eq_lt_dec i (length l1)) as [[Hlt|Heq]|Hgt].
  - rewrite lookup_app_l in Hi by exact Hlt.
    eapply Forall_lookup in H1; [|exact Hi]. contradiction.
  - subst i. rewrite list_lookup_middle in Hi by reflexivity.
    split; [reflexivity | congruence].
  - rewrite lookup_app_r in Hi by lia.
    destruct (i - length l1)%nat as [|m] eqn:E; [lia|]. simpl in Hi.
    eapply Forall_lookup in H2; [|exact Hi]. contradiction.
Qed.

Lemma returned_cases (l0 : list Task) (f : nat -> nat) (c : Config) (j : nat)
    (resp : Response) :
  Inv l0 f c -> workers c !! j = Some (Returned resp) ->
  (exists task, resp = OkTask task /\ claimed l0 (shared_tasks c) (f j) task)
  \/ (resp = NotFound /\ Forall not_pending (shared_tasks c)).
Proof.
  intros HI Hj. pose proof (inv_workers _ _ _ HI j _ Hj) as Hok.
  destruct resp; simpl in Hok; try contradiction.
  - left. eexists. split; [reflexivity | exact Hok].
  - right. split; [reflexivity | exact Hok].
Qed.

Lemma one_pending_one_winner (l1 l2 : list Task) (t0 : Task) (f : nat -> nat)
    (c : Config) :
  Forall not_pending l1 -> Status t0 = "pending" -> Forall not_pending l2 ->
  Inv (l1 ++ t0 :: l2) f c ->
  (0 < length (workers c))%nat ->
  all_returned c = true ->
  exists j, workers c !! j = Some (Returned (OkTask t0))
            /\ forall j', j' <> j -> (j' < length (workers c))%nat ->
                 workers c !! j' = Some (Returned NotFound).
Proof.
  intros H1 Hp H2 HI Hk Hall.
  assert (H0 : (l1 ++ t0 :: l2) !! length l1 = Some t0).
  { apply list_lookup_middle. reflexivity. }
  assert (Hidx : forall j task, claimed (l1 ++ t0 :: l2) (shared_tasks c) (f j) task ->
                   f j = length l1 /\ task = t0).
  { intros j task (Hl0 & Hpt & _). exact (only_pending l1 l2 t0 task (f j) H1 H2 Hl0 Hpt). }
  destruct (inv_pending_start _ _ _ HI _ _ H0 Hp) as [Hl | (j & w & Hj & Hc & Hf)].
  - exfalso.
    destruct (lookup_lt_is_Some_2 (workers c) 0 Hk) as [w Hw].
    destruct (all_returned_lookup c 0 w Hall Hw) as [resp ->].
    destruct (returned_cases _ f c 0 resp HI Hw) as [(task & -> & Hcl) | [-> Hnone]].
    + destruct (Hidx _ _ Hcl) as [Hf0 ->].
      destruct Hcl as (_ & _ & t' & Ht' & Hnp). rewrite Hf0 in Ht'.
      assert (t' = t0) as -> by congruence. contradiction.
    + eapply Forall_lookup in Hnone; [|exact Hl]. contradiction.
  - exists j.
    destruct (all_returned_lookup c j w Hall Hj) as [resp ->].
    simpl in Hc. destruct resp; try discriminate. injection Hc as ->.
    split; [exact Hj|].
    intros j' Hne Hlt.
    destruct (lookup_lt_is_Some_2 (workers c) j' Hlt) as [w' Hw'].
    destruct (all_returned_lookup c j' w' Hall Hw') as [resp' ->].
    destruct (returned_cases _ f c j' resp' HI Hw') as [(task & -> & Hcl) | [-> _]];
      [|exact Hw'].
    exfalso. apply Hne.
    destruct (Hidx _ _ Hcl) as [Hf' ->].
    apply (inv_distinct _ _ _ HI j' j _ _ t0 t0 Hw' Hj); try reflexivity. congruence.
Qed.

(** *** No deadlock, and every run can be completed *)

Lemma not_all_returned (ws : list Worker) :
  forallb has_returned ws = false ->
  exists j w, ws !! j = Some w /\ has_returned w = false.
Proof.
  induction ws as [|w ws IH]; simpl; [discriminate|].
  destruct (has_returned w) eqn:E; simpl.
  - intros H. destruct (IH H) as (j & w' & Hj & Hw'). exists (S j), w'. auto.
  - intros _. exists 0%nat, w. auto.
Qed.

Lemma section_worker_moves (l0 l : list Task) (fj : nat) (now : Time) (w : Worker) :
  in_section w = true -> worker_ok l0 l fj w ->
  exists r, worker_step now l true w = Some r.
Proof.
  intros E Hok. destruct w as [|n i|n i task|i task|i task|task| |resp];
    simpl in E; try discriminate; simpl; try (eexists; reflexivity).
  - destruct Hok as [-> _].
    destruct (Nat.ltb_spec i (length l)) as [Hlt|_]; [|eexists; reflexivity].
    destruct (lookup_lt_is_Some_2 l i Hlt) as [task ->]. eexists; reflexivity.
  - destruct (String.eqb (Status task) "pending"); eexists; reflexivity.
Qed.

(** Unless every worker has returned, some worker can run its next
    statement. *)
Lemma some_worker_moves (l0 : list Task) (f : nat -> nat) (c : Config) :
  Inv l0 f c -> all_returned c = false ->
  exists j, forall now, exists c', step_worker j now c = Some c'.
Proof.
  intros HI Hnot. pose proof (inv_mutex _ _ _ HI) as Hm.
  destruct (mutex_locked c) eqn:Hlocked.
  - destruct Hm as (j & w & Hj & E). exists j. intros now.
    unfold step_worker. rewrite Hj, Hlocked.
    destruct (section_worker_moves l0 (shared_tasks c) (f j) now w E
                (inv_workers _ _ _ HI j w Hj)) as [[[l' b'] w'] ->].
    eexists. reflexivity.
  - destruct (not_all_returned _ Hnot) as (j & w & Hj & Hw).
    exists j. intros now. unfold step_worker. rewrite Hj, Hlocked.
    pose proof (Hm j w Hj) as E.
    destruct w; simpl in E, Hw; try discriminate. simpl. eexists. reflexivity.
Qed.

Lemma list_sum_insert (l : list nat) :
  forall (j x y : nat), l !! j = Some y ->
  (list_sum (<[j := x]> l) + y = list_sum l + x)%nat.
Proof.
  induction l as [|a l IH]; intros [|j] x y; simpl; try discriminate.
  - intros [= ->]. lia.
  - intros H. specialize (IH j x y H). lia.
Qed.

Lemma worker_step_decreases (l0 l l' : list Task) (fj : nat) (now : Time)
    (locked locked' : bool) (w w' : Worker) :
  worker_ok l0 l fj w ->
  worker_step now l locked w = Some (l', locked', w') ->
  length l' = length l
  /\ (steps_left (length l) w' < steps_left (length l) w)%nat.
Proof.
  intros Hok. destruct w as [|n i|n i task|i task|i task|task| |resp]; simpl.
  - destruct locked; [discriminate|]. intros [= <- <- <-]. simpl. lia.
  - destruct (Nat.ltb_spec i n) as [Hlt|Hge].
    + destruct (l !! i); [|discriminate]. intros [= <- <- <-]. simpl. lia.
    + intros [= <- <- <-]. simpl. lia.
  - destruct Hok as (-> & Hi & _). apply lookup_lt_Some in Hi.
    destruct (String.eqb (Status task) "pending"); intros [= <- <- <-]; simpl; lia.
  - intros [= <- <- <-]. rewrite length_alter. simpl. lia.
  - intros [= <- <- <-]. rewrite length_alter. simpl. lia.
  - intros [= <- <- <-]. simpl. lia.
  - intros [= <- <- <-]. simpl. lia.
  - discriminate.
Qed.

Lemma step_worker_decreases (l0 : list Task) (f : nat -> nat) (c c' : Config)
    (j : nat) (now : Time) :
  Inv l0 f c -> step_worker j now c = Some c' ->
  (total_steps_left c' < total_steps_left c)%nat.
Proof.
  intros HI. unfold step_worker, total_steps_left.
  destruct (workers c !! j) as [w|] eqn:Hj; [|discriminate].
  destruct (worker_step now (shared_tasks c) (mutex_locked c) w) as [[[l' b'] w']|] eqn:E;
    [|discriminate].
  intros [= <-]. simpl.
  destruct (worker_step_decreases l0 _ _ (f j) _ _ _ _ _ (inv_workers _ _ _ HI j w Hj) E)
    as [-> Hlt].
  rewrite list_fmap_insert.
  pose proof (list_sum_insert (steps_left (length (shared_tasks c)) <$> workers c) j
                (steps_left (length (shared_tasks c)) w')
                (steps_left (length (shared_tasks c)) w)) as Hsum.
  rewrite list_lookup_fmap, Hj in Hsum. specialize (Hsum eq_refl). lia.
Qed.

(** From every reachable configuration some schedule makes all workers
    return. *)
Lemma run_can_complete (l0 : list Task) (m : nat) :
  forall c : Config,
  (exists f, Inv l0 f c) -> (total_steps_left c < m)%nat ->
  exists sched, all_returned (run_schedule sched c) = true.
Proof.
  induction m as [|m IH]; intros c [f HI] Hm; [lia|].
  destruct (all_returned c) eqn:Hall.
  - exists []. exact Hall.
  - destruct (some_worker_moves l0 f c HI Hall) as [j Hj].
    destruct (Hj 0) as [c' Hc'].
    pose proof (step_worker_decreases l0 f c c' j 0 HI Hc') as Hlt.
    destruct (IH c') as [sched Hsched].
    + exact (step_worker_inv l0 f c c' j 0 HI Hc').
    + lia.
    + exists ((j, 0) :: sched). simpl. rewrite Hc'. exact Hsched.
Qed.

(** C6. [k] handlers [getTaskForExecution] run concurrently, under any
    schedule of their statements.
    - Whatever has run so far, the run can be completed: some further
      schedule makes every handler return.
    - Two handlers that were answered with a task took their tasks at two
      different indices of the slice, and, the stored ids being distinct,
      tasks with different ids: no task is handed to two callers.
    - When exactly one stored task [t0] is pending and all handlers have
      returned, exactly one handler was answered with [t0] and every other
      handler with [NotFound]. *)
Theorem concurrent_claims_exclusive :
  (forall (l0 : list Task) (k : nat) (sched : list (nat * Time)),
      exists sched',
        all_returned (run_schedule (sched ++ sched') (start_workers k l0)) = true)
  /\ (forall (l0 : list Task) (k : nat) (sched : list (nat * Time))
             (j1 j2 : nat) (t1 t2 : Task),
        let c := run_schedule sched (start_workers k l0) in
        j1 <> j2 ->
        workers c !! j1 = Some (Returned (OkTask t1)) ->
        workers c !! j2 = Some (Returned (OkTask t2)) ->
        (exists i1 i2, i1 <> i2 /\ l0 !! i1 = Some t1 /\ l0 !! i2 = Some t2)
        /\ (NoDup (ID <$> l0) -> ID t1 <> ID t2))
  /\ (forall (l1 l2 : list Task) (t0 : Task) (k : nat) (sched : list (nat * Time)),
        let c := run_schedule sched (start_workers k (l1 ++ t0 :: l2)) in
        Forall (fun t => Status t <> "pending") l1 ->
        Status t0 = "pending" ->
        Forall (fun t => Status t <> "pending") l2 ->
        (0 < k)%nat ->
        all_returned c = true ->
        exists j, (j < k)%nat
                  /\ workers c !! j = Some (Returned (OkTask t0))
                  /\ forall j', j' <> j -> (j' < k)%nat ->
                       workers c !! j' = Some (Returned NotFound)).
Proof.
  split; [|split].
  - intros l0 k sched.
    destruct (run_can_complete l0
                (S (total_steps_left (run_schedule sched (start_workers k l0))))
                (run_schedule sched (start_workers k l0)))
      as [sched' H]; [apply reachable_inv | lia |].
    exists sched'. rewrite run_schedule_app. exact H.
  - intros l0 k sched j1 j2 t1 t2 c Hne H1 H2.
    destruct (reachable_inv l0 k sched) as [f HI]. fold c in HI.
    destruct (returned_cases l0 f c j1 _ HI H1) as [(t & [= <-] & Hc1) | [[=] _]].
    destruct (returned_cases l0 f c j2 _ HI H2) as [(t & [= <-] & Hc2) | [[=] _]].
    destruct Hc1 as [Hl1 _]. destruct Hc2 as [Hl2 _].
    assert (Hf : f j1 <> f j2).
    { intros Heq. apply Hne.
      exact (inv_distinct _ _ _ HI j1 j2 _ _ t1 t2 H1 H2 eq_refl eq_refl Heq). }
    split.
    + exists (f j1), (f j2). auto.
    + intros Hnd Hid. apply Hf.
      apply (NoDup_lookup (ID <$> l0) (f j1) (f j2) (ID t1) Hnd).
      * rewrite list_lookup_fmap, Hl1. reflexivity.
      * rewrite list_lookup_fmap, Hl2, Hid. reflexivity.
  - intros l1 l2 t0 k sched c Hl1 Hp Hl2 Hk Hall.
    destruct (reachable_inv (l1 ++ t0 :: l2) k sched) as [f HI]. fold c in HI.
    assert (length (workers c) = k) as Hlen.
    { unfold c. rewrite run_schedule_length. simpl. apply length_replicate. }
    destruct (one_pending_one_winner l1 l2 t0 f c Hl1 Hp Hl2 HI) as (j & Hj & Hothers);
      [lia | exact Hall |].
    exists j. split; [apply lookup_lt_Some in Hj; lia|].
    split; [exact Hj|]. intros j' Hne Hlt. apply Hothers; [exact Hne | lia].
Qed.

Lemma concurrent_claims_exclusive_witness :
  let l1 := [mkTask 1 "1+1" "in_progress" zero_float 3] in
  let t0 := mkTask 2 "2*3" "pending" zero_float zero_time in
  let sched := concat (replicate 24 [(1%nat, 10); (0%nat, 11); (2%nat, 12)]) in
  let c := run_schedule sched (start_workers 3 (l1 ++ t0 :: [])) in
  exists j, (j < 3)%nat
            /\ workers c !! j = Some (Returned (OkTask t0))
            /\ forall j', j' <> j -> (j' < 3)%nat ->
                 workers c !! j' = Some (Returned NotFound).
Proof.
  apply (proj2 (proj2 concurrent_claims_exclusive)
           [mkTask 1 "1+1" "in_progress" zero_float 3] []
           (mkTask 2 "2*3" "pending" zero_float zero_time) 3%nat
           (concat (replicate 24 [(1%nat, 10); (0%nat, 11); (2%nat, 12)]))).
  - repeat constructor. discriminate.
  - reflexivity.
  - constructor.
  - lia.
  - vm_compute. reflexivity.
Defined.

(** In this run worker 1 gets the mutex first and is the one that is
    answered with the task. *)
Example three_workers_one_task :
  let t0 := mkTask 2 "2*3" "pending" zero_float zero_time in
  let sched := concat (replicate 24 [(1%nat, 10); (0%nat, 11); (2%nat, 12)]) in
  run_schedule sched (start_workers 3 [mkTask 1 "1+1" "in_progress" zero_float 3; t0])
  = {| shared_tasks := [ mkTask 1 "1+1" "in_progress" zero_float 3;
                         mkTask 2 "2*3" "in_progress" zero_float 10 ];
       mutex_locked := false;
       workers := [Returned NotFound; Returned (OkTask t0); Returned NotFound] |}.
Proof. vm_compute. reflexivity. Qed.

(** *** A worker alone is the handler *)

Lemma run_schedule_replicate_add (n m : nat) (j : nat) (now : Time) (c : Config) :
  run_schedule (replicate (n + m) (j, now)) c
  = run_schedule (replicate m (j, now)) (run_schedule (replicate n (j, now)) c).
Proof. rewrite replicate_add. apply run_schedule_app. Qed.

Lemma solo_loop (now : Time) (rest : list Task) :
  forall pre : list Task,
  exists n,
    run_schedule (replicate n (0%nat, now))
      {| shared_tasks := pre ++ rest; mutex_locked := true;
         workers := [AtRange (length (pre ++ rest)) (length pre)] |}
    = match execution_loop now (pre ++ rest) (length pre) rest with
      | Some (l', task) =>
          {| shared_tasks := l'; mutex_locked := false;
             workers := [Returned (OkTask task)] |}
      | None =>
          {| shared_tasks := pre ++ rest; mutex_locked := false;
             workers := [Returned NotFound] |}
      end.
Proof.
  induction rest as [|t rest IH]; intros pre.
  - exists 2%nat. simpl. unfold step_worker. simpl.
    rewrite app_nil_r, Nat.ltb_irrefl. simpl. reflexivity.
  - assert (Hlt : (length pre <? length (pre ++ t :: rest))%nat = true).
    { apply Nat.ltb_lt. rewrite length_app. simpl. lia. }
    assert (Hi : (pre ++ t :: rest) !! length pre = Some t).
    { apply list_lookup_middle. reflexivity. }
    simpl execution_loop.
    destruct (String.eqb (Status t) "pending") eqn:Hp.
    + exists 5%nat. simpl. unfold step_worker. simpl.
      rewrite Hlt, Hi. simpl. rewrite Hp. simpl. reflexivity.
    + assert (Hpre : (pre ++ [t]) ++ rest = pre ++ t :: rest).
      { rewrite <- app_assoc. reflexivity. }
      assert (Hlen : length (pre ++ [t]) = S (length pre)).
      { rewrite length_app. simpl. lia. }
      specialize (IH (pre ++ [t])). rewrite Hpre, Hlen in IH.
      destruct IH as [n Hn].
      exists (2 + n)%nat. rewrite run_schedule_replicate_add.
      simpl. unfold step_worker at 1 2. simpl.
      rewrite Hlt, Hi. simpl. rewrite Hp. simpl.
      exact Hn.
Qed.

(** X16. One worker running alone, from [Lock] to its return, leaves the
    slice and answers exactly as the handler [getTaskForExecution] does on
    the same tasks at the same instant. *)
Lemma solo_worker_is_handler (now : Time) (s : Registry) :
  exists n,
    run_schedule (replicate n (0%nat, now)) (start_workers 1 (tasks s))
    = {| shared_tasks := tasks (fst (getTaskForExecution now s));
         mutex_locked := false;
         workers := [Returned (snd (getTaskForExecution now s))] |}.
Proof.
  destruct (solo_loop now (tasks s) []) as [n Hn]. simpl in Hn.
  exists (1 + n)%nat. rewrite run_schedule_replicate_add.
  simpl. rewrite Hn.
  unfold getTaskForExecution.
  destruct (execution_loop now (tasks s) 0 (tasks s)) as [[l' task]|]; reflexivity.
Qed.

(** * Further properties of the handlers *)

(** ** Requests that change nothing *)

Lemma route_noop (r : Request) (s : Registry) :
  is_noop r = true -> fst (route r s) = s.
Proof.
  destruct r as [[req|] | taskID | | now | [task|]]; simpl; try discriminate;
    intros _; try reflexivity.
  unfold getTaskStatus. destruct (status_loop taskID (tasks s)); reflexivity.
Qed.

(** X1. A request that only reads ([getTaskStatus], [getOperations]) or
    whose body does not decode ([addTask], [handleResult] answering
    [BadRequest]) leaves the registry as it is: such requests can be taken
    out of any sequence of requests without changing the registry that the
    sequence ends in. *)
Theorem serve_without_noops (reqs : list Request) (s : Registry) :
  fst (serve reqs s) = fst (serve (List.filter (fun r => negb (is_noop r)) reqs) s).
Proof.
  revert s. induction reqs as [|r reqs IH]; intros s; [reflexivity|].
  rewrite serve_cons. simpl fst. simpl List.filter.
  destruct (is_noop r) eqn:E; simpl negb; cbv iota.
  - rewrite (route_noop r s E). apply IH.
  - rewrite serve_cons. simpl fst. apply IH.
Qed.

(** ** Stored ids *)

Lemma route_ids_extend (r : Request) (s : Registry) :
  exists new, ID <$> tasks (fst (route r s)) = (ID <$> tasks s) ++ new.
Proof.
  destruct (add_or_not r) as [[req ->]|Hr].
  - simpl. rewrite fmap_app. eexists. reflexivity.
  - destruct (route_keeps_ids r s Hr) as (H & _). exists []. rewrite app_nil_r. exact H.
Qed.

(** X2. No handler removes or reorders tasks or changes the id of a stored
    task: after any sequence of requests, the list of the stored ids starts
    with the list of the ids stored before. *)
Theorem serve_ids_extend (reqs : list Request) (s : Registry) :
  exists new, ID <$> tasks (fst (serve reqs s)) = (ID <$> tasks s) ++ new.
Proof.
  revert s. induction reqs as [|r reqs IH]; intros s.
  - exists []. rewrite app_nil_r. reflexivity.
  - rewrite serve_cons. simpl fst.
    destruct (IH (fst (route r s))) as [new2 H2].
    destruct (route_ids_extend r s) as [new1 H1].
    exists (new1 ++ new2). rewrite H2, H1, app_assoc. reflexivity.
Qed.

Lemma reachable_ids_in_order (reqs : list Request) :
  Z.of_nat (length (tasks (registry_after reqs))) <= max_int ->
  ids_in_order (registry_after reqs).
Proof.
  intros Hlen.
  destruct (serve_created_ids reqs init_registry init_ids_in_order Hlen) as [H _].
  exact H.
Qed.

Lemma ids_in_order_NoDup (s : Registry) : ids_in_order s -> NoDup (ID <$> tasks s).
Proof. intros [_ H]. rewrite H. apply NoDup_seqZ. Qed.

(** X3. In the registry reached by any sequence of requests since process
    start (the slice length fitting an [int]), [taskIDCounter] is the number
    of stored tasks, the task at index [i] has the id [i + 1], and no two
    stored tasks have the same id. *)
Theorem registry_ids_are_positions (reqs : list Request) :
  let s := registry_after reqs in
  Z.of_nat (length (tasks s)) <= max_int ->
  taskIDCounter s = Z.of_nat (length (tasks s))
  /\ (forall (i : nat) (t : Task), tasks s !! i = Some t -> ID t = Z.of_nat i + 1)
  /\ NoDup (ID <$> tasks s).
Proof.
  intros s Hlen. pose proof (reachable_ids_in_order reqs Hlen) as Hs. fold s in Hs.
  split; [exact (proj1 Hs)|]. split; [|exact (ids_in_order_NoDup s Hs)].
  intros i t Hi. destruct Hs as [_ Hids].
  assert ((ID <$> tasks s) !! i = Some (ID t)) as H.
  { rewrite list_lookup_fmap, Hi. reflexivity. }
  rewrite Hids in H. apply lookup_seqZ in H as [H _]. lia.
Qed.

Lemma registry_ids_are_positions_witness :
  let s := registry_after [ create "1+1"; ReqGetTaskForExecution 5; create "2*3";
                            ReqHandleResult (Some (mkTask 1 "x" "pending" 2%float 0)) ] in
  taskIDCounter s = 2
  /\ (forall (i : nat) (t : Task), tasks s !! i = Some t -> ID t = Z.of_nat i + 1)
  /\ NoDup (ID <$> tasks s).
Proof.
  apply (registry_ids_are_positions
           [ create "1+1"; ReqGetTaskForExecution 5; create "2*3";
             ReqHandleResult (Some (mkTask 1 "x" "pending" 2%float 0)) ]).
  vm_compute. discriminate.
Defined.

(** ** Looking a task up by its id *)

(** With distinct stored ids the loop of [getTaskStatus] finds the very
    record that carries the id. *)
Lemma status_loop_unique (l : list Task) (i : nat) (t : Task) :
  NoDup (ID <$> l) -> l !! i = Some t -> status_loop (Itoa (ID t)) l = Some t.
Proof.
  intros Hnd Hi.
  destruct (split_at_index (fun t' => Itoa (ID t') <> Itoa (ID t)) l i t Hi)
    as (Hsplit & Hpre & _).
  - intros j t' Hlt Hj Heq. apply Itoa_inj in Heq.
    assert (j = i); [|lia].
    apply (NoDup_lookup (ID <$> l) j i (ID t) Hnd).
    + rewrite list_lookup_fmap, Hj. simpl. rewrite Heq. reflexivity.
    + rewrite list_lookup_fmap, Hi. reflexivity.
  - rewrite Hsplit. apply status_loop_first; [exact Hpre | reflexivity].
Qed.

Lemma status_loop_absent (l : list Task) (id : Z) :
  (forall t, t ∈ l -> ID t <> id) -> status_loop (Itoa id) l = None.
Proof.
  intros H. apply status_loop_no_match. apply Forall_forall.
  intros t Ht Heq. apply Itoa_inj in Heq. exact (H t Ht Heq).
Qed.

(** X4. In the registry reached by any sequence of requests since process
    start (the slice length fitting an [int]), [getTaskStatus] with the
    decimal form of a number [id] answers with the record stored at index
    [id - 1] when [1 <= id <= len(tasks)], and with [NotFound] for every
    other number. *)
Theorem getTaskStatus_by_number (reqs : list Request) (id : Z) :
  let s := registry_after reqs in
  Z.of_nat (length (tasks s)) <= max_int ->
  getTaskStatus (Itoa id) s
  = (s, if ((1 <=? id)%Z && (id <=? Z.of_nat (length (tasks s)))%Z)%bool
        then match tasks s !! Z.to_nat (id - 1) with
             | Some t => OkTask t
             | None => NotFound
             end
        else NotFound).
Proof.
  intros s Hlen. pose proof (reachable_ids_in_order reqs Hlen) as Hs. fold s in Hs.
  assert (Hpos : forall (i : nat) (t : Task), tasks s !! i = Some t -> ID t = Z.of_nat i + 1).
  { intros i t Hi. destruct Hs as [_ Hids].
    assert ((ID <$> tasks s) !! i = Some (ID t)) as H.
    { rewrite list_lookup_fmap, Hi. reflexivity. }
    rewrite Hids in H. apply lookup_seqZ in H as [H _]. lia. }
  unfold getTaskStatus.
  destruct ((1 <=? id)%Z && (id <=? Z.of_nat (length (tasks s)))%Z)%bool eqn:E.
  - apply andb_true_iff in E as [E1 E2]. apply Z.leb_le in E1, E2.
    destruct (lookup_lt_is_Some_2 (tasks s) (Z.to_nat (id - 1))) as [t Ht]; [lia|].
    rewrite Ht.
    assert (ID t = id) as <-.
    { rewrite (Hpos _ _ Ht). lia. }
    rewrite (status_loop_unique _ _ _ (ids_in_order_NoDup s Hs) Ht). reflexivity.
  - rewrite status_loop_absent; [reflexivity|].
    intros t Ht Heq. apply list_elem_of_lookup in Ht as [i Hi].
    pose proof (Hpos i t Hi) as Hid. apply lookup_lt_Some in Hi.
    apply andb_false_iff in E as [E|E]; apply Z.leb_gt in E; lia.
Qed.

Lemma getTaskStatus_by_number_witness :
  let s := registry_after [create "1+1"; create "2*3"; ReqGetTaskForExecution 5] in
  getTaskStatus (Itoa 2) s = (s, OkTask (mkTask 2 "2*3" "pending" zero_float zero_time)).
Proof.
  apply (getTaskStatus_by_number
           [create "1+1"; create "2*3"; ReqGetTaskForExecution 5] 2).
  vm_compute. discriminate.
Defined.

(** What [getTaskForExecution] answers decides what it did. *)
Lemma getTaskForExecution_inv (now : Time) (s s' : Registry) (t : Task) :
  getTaskForExecution now s = (s', OkTask t) ->
  exists l1 l2,
    tasks s = l1 ++ t :: l2 /\ Forall not_pending l1 /\ Status t = "pending"
    /\ s' = with_tasks s (l1 ++ set_StartTime now (set_Status "in_progress" t) :: l2).
Proof.
  intros H. destruct (not_pending_dec (tasks s)) as [Hall|Hn].
  - rewrite (getTaskForExecution_empty now s Hall) in H. discriminate.
  - destruct (first_pending_split _ Hn) as (l1 & t0 & l2 & Hs & Hl1 & Ht0).
    rewrite (getTaskForExecution_split now s l1 t0 l2 Hs Hl1 Ht0) in H.
    injection H as <- <-. exists l1, l2. auto.
Qed.

(** X5. In the registry reached by any sequence of requests since process
    start (the slice length fitting an [int]): when [getTaskForExecution]
    hands out a task at the instant [now], a [getTaskStatus] for the id of
    this task, run right after, shows the task with status "in_progress"
    and start time [now], and with the id, expression and result it had. *)
Theorem getTaskForExecution_then_getTaskStatus
    (reqs : list Request) (now : Time) (s' : Registry) (t : Task) :
  let s := registry_after reqs in
  Z.of_nat (length (tasks s)) <= max_int ->
  getTaskForExecution now s = (s', OkTask t) ->
  getTaskStatus (Itoa (ID t)) s'
  = (s', OkTask (mkTask (ID t) (Expression t) "in_progress" (Result t) now)).
Proof.
  intros s Hlen Hclaim.
  pose proof (ids_in_order_NoDup s (reachable_ids_in_order reqs Hlen)) as Hnd.
  pose proof (getTaskForExecution_ids now s) as Hids.
  rewrite Hclaim in Hids. simpl in Hids.
  destruct (getTaskForExecution_inv now s s' t Hclaim) as (l1 & l2 & Hs & _ & _ & ->).
  unfold getTaskStatus. simpl tasks in *.
  rewrite <- Hids in Hnd.
  pose proof (status_loop_unique _ (length l1) _ Hnd
                (list_lookup_middle l1 l2 _ _ eq_refl)) as H.
  simpl in H. rewrite H. reflexivity.
Qed.

Lemma getTaskForExecution_then_getTaskStatus_witness :
  let s := registry_after [create "1+1"; create "2*3"; ReqGetTaskForExecution 5] in
  let t := mkTask 2 "2*3" "pending" zero_float zero_time in
  let s' := with_tasks s [ mkTask 1 "1+1" "in_progress" zero_float 5;
                           mkTask 2 "2*3" "in_progress" zero_float 9 ] in
  getTaskStatus (Itoa (ID t)) s'
  = (s', OkTask (mkTask (ID t) (Expression t) "in_progress" (Result t) 9)).
Proof.
  apply (getTaskForExecution_then_getTaskStatus
           [create "1+1"; create "2*3"; ReqGetTaskForExecution 5] 9).
  - vm_compute. discriminate.
  - reflexivity.
Defined.

(** ** Reports *)

(** X6. In the registry reached by any sequence of requests since process
    start (the slice length fitting an [int]): after [handleResult] has
    accepted a record, [getTaskStatus] for the id of the record answers with
    exactly the posted record when a task with this id was stored, and with
    [NotFound] when none was: a report never creates a task. *)
Theorem handleResult_then_getTaskStatus (reqs : list Request) (task : Task) :
  let s := registry_after reqs in
  let s' := fst (handleResult (Some task) s) in
  Z.of_nat (length (tasks s)) <= max_int ->
  ((exists t, t ∈ tasks s /\ ID t = ID task) ->
   getTaskStatus (Itoa (ID task)) s' = (s', OkTask task))
  /\ ((forall t, t ∈ tasks s -> ID t <> ID task) ->
      getTaskStatus (Itoa (ID task)) s' = (s', NotFound)).
Proof.
  intros s s' Hlen.
  pose proof (ids_in_order_NoDup s (reachable_ids_in_order reqs Hlen)) as Hnd.
  pose proof (handleResult_ids (Some task) s) as Hids. fold s' in Hids.
  split.
  - intros (t & Hin & Hid).
    destruct (id_match_dec (ID task) (tasks s)) as [Hall | (l1 & t0 & l2 & Hs & Hl1 & Ht0)].
    { rewrite Forall_forall in Hall. destruct (Hall t Hin Hid). }
    assert (tasks s' = l1 ++ task :: l2) as Hs'.
    { unfold s'. rewrite (handleResult_split task s l1 t0 l2 Hs Hl1 Ht0). reflexivity. }
    unfold getTaskStatus. rewrite <- Hids in Hnd.
    rewrite (status_loop_unique (tasks s') (length l1) task Hnd); [reflexivity|].
    rewrite Hs'. apply list_lookup_middle. reflexivity.
  - intros Hno. unfold s'.
    rewrite handleResult_no_match by (apply Forall_forall; exact Hno). simpl.
    unfold getTaskStatus. rewrite status_loop_absent; [reflexivity | exact Hno].
Qed.

Lemma handleResult_then_getTaskStatus_witness :
  let s := registry_after [create "1+1"; create "2*3"; ReqGetTaskForExecution 5] in
  let done := mkTask 1 "1+1" "completed" 2%float 5 in
  let ghost := mkTask 9999 "7/0" "completed" 1%float 5 in
  getTaskStatus "1" (fst (handleResult (Some done) s))
  = (fst (handleResult (Some done) s), OkTask done)
  /\ getTaskStatus "9999" (fst (handleResult (Some ghost) s))
     = (fst (handleResult (Some ghost) s), NotFound).
Proof.
  split.
  - apply (proj1 (handleResult_then_getTaskStatus
                    [create "1+1"; create "2*3"; ReqGetTaskForExecution 5]
                    (mkTask 1 "1+1" "completed" 2%float 5)
                    ltac:(vm_compute; discriminate))).
    eexists. split; [apply elem_of_cons; left; reflexivity | reflexivity].
  - apply (proj2 (handleResult_then_getTaskStatus
                    [create "1+1"; create "2*3"; ReqGetTaskForExecution 5]
                    (mkTask 9999 "7/0" "completed" 1%float 5)
                    ltac:(vm_compute; discriminate))).
    intros t Ht. vm_compute in Ht.
    apply elem_of_cons in Ht as [-> | Ht]; [vm_compute; discriminate|].
    apply elem_of_cons in Ht as [-> | Ht]; [vm_compute; discriminate|].
    apply elem_of_nil in Ht. destruct Ht.
Defined.

(** X7. Of two reports for the same id the later one wins: posting [first]
    and then [second] leaves the registry that posting [second] alone
    leaves.  In particular posting the same record twice is posting it
    once. *)
Theorem handleResult_last_wins (first second : Task) (s : Registry) :
  ID first = ID second ->
  handleResult (Some second) (fst (handleResult (Some first) s))
  = handleResult (Some second) s.
Proof.
  intros Hid.
  destruct (id_match_dec (ID first) (tasks s)) as [Hall | (l1 & t & l2 & Hs & Hl1 & Ht)].
  - rewrite (handleResult_no_match first s Hall). reflexivity.
  - rewrite (handleResult_split first s l1 t l2 Hs Hl1 Ht). simpl fst.
    rewrite Hid in Hl1, Ht.
    rewrite (handleResult_split second s l1 t l2 Hs Hl1 Ht).
    rewrite (handleResult_split second (with_tasks s (l1 ++ first :: l2))
               l1 first l2 eq_refl Hl1 Hid).
    reflexivity.
Qed.

Lemma handleResult_last_wins_witness :
  let s := registry_after [create "1+1"; create "2*3"] in
  let first := mkTask 2 "2*3" "in_progress" zero_float 4 in
  let second := mkTask 2 "2*3" "completed" 6%float 4 in
  handleResult (Some second) (fst (handleResult (Some first) s))
  = handleResult (Some second) s.
Proof.
  apply (handleResult_last_wins
           (mkTask 2 "2*3" "in_progress" zero_float 4)
           (mkTask 2 "2*3" "completed" 6%float 4)).
  reflexivity.
Defined.

(** ** The pending tasks as a queue *)

Lemma is_pending_true (t : Task) : is_pending t = true <-> Status t = "pending".
Proof. unfold is_pending. apply String.eqb_eq. Qed.

Lemma filter_not_pending (l : list Task) :
  Forall not_pending l -> List.filter is_pending l = [].
Proof.
  induction l as [|a l IH]; intros H; simpl; [reflexivity|].
  inversion H as [|? ? Ha Hl]; subst.
  destruct (is_pending a) eqn:E.
  - apply is_pending_true in E. contradiction.
  - apply IH. exact Hl.
Qed.

Lemma filter_first_pending (l1 l2 : list Task) (t : Task) :
  Forall not_pending l1 ->
  List.filter is_pending (l1 ++ t :: l2)
  = (if is_pending t then [t] else []) ++ List.filter is_pending l2.
Proof.
  intros H. rewrite List.filter_app, (filter_not_pending l1 H). simpl.
  destruct (is_pending t); reflexivity.
Qed.

Lemma getTaskForExecution_queue (now : Time) (s : Registry) :
  match pending_queue s with
  | [] => getTaskForExecution now s = (s, NotFound)
  | t :: q =>
      snd (getTaskForExecution now s) = OkTask t
      /\ pending_queue (fst (getTaskForExecution now s)) = q
  end.
Proof.
  unfold pending_queue.
  destruct (not_pending_dec (tasks s)) as [Hall|Hn].
  - rewrite (filter_not_pending _ Hall). apply getTaskForExecution_empty. exact Hall.
  - destruct (first_pending_split _ Hn) as (l1 & t & l2 & Hs & Hl1 & Ht).
    rewrite (getTaskForExecution_split now s l1 t l2 Hs Hl1 Ht). simpl.
    rewrite Hs, !filter_first_pending by exact Hl1.
    apply is_pending_true in Ht. rewrite Ht. simpl. split; reflexivity.
Qed.

(** X8. [getTaskForExecution] treats the pending tasks as a queue in slice
    order: it answers [NotFound] and changes nothing when no stored task is
    pending; otherwise it hands out the first pending task and the pending
    tasks left are the others, in the same order. *)
Theorem getTaskForExecution_pops_queue (now : Time) (s : Registry) :
  (pending_queue s = [] -> getTaskForExecution now s = (s, NotFound))
  /\ (forall (t : Task) (q : list Task),
        pending_queue s = t :: q ->
        snd (getTaskForExecution now s) = OkTask t
        /\ pending_queue (fst (getTaskForExecution now s)) = q).
Proof.
  pose proof (getTaskForExecution_queue now s) as H. split.
  - intros E. rewrite E in H. exact H.
  - intros t q E. rewrite E in H. exact H.
Qed.

Lemma getTaskForExecution_pops_queue_witness :
  let s := registry_after [create "1+1"; create "2*3"; ReqGetTaskForExecution 5;
                           create "8/4"] in
  snd (getTaskForExecution 9 s) = OkTask (mkTask 2 "2*3" "pending" zero_float zero_time)
  /\ pending_queue (fst (getTaskForExecution 9 s))
     = [mkTask 3 "8/4" "pending" zero_float zero_time].
Proof.
  apply (proj2 (getTaskForExecution_pops_queue 9
                  (registry_after [create "1+1"; create "2*3";
                                   ReqGetTaskForExecution 5; create "8/4"]))).
  reflexivity.
Defined.

Lemma serve_claims_cons (now : Time) (nows : list Time) (s : Registry) :
  serve (claims (now :: nows)) s
  = (fst (serve (claims nows) (fst (getTaskForExecution now s))),
     snd (getTaskForExecution now s)
       :: snd (serve (claims nows) (fst (getTaskForExecution now s)))).
Proof. unfold claims. rewrite fmap_cons. apply serve_cons. Qed.

Lemma serve_claims_drain (nows : list Time) :
  forall s : Registry,
  snd (serve (claims nows) s)
  = (OkTask <$> take (length nows) (pending_queue s))
      ++ replicate (length nows - length (pending_queue s)) NotFound
  /\ pending_queue (fst (serve (claims nows) s))
     = drop (length nows) (pending_queue s).
Proof.
  induction nows as [|now nows IH]; intros s.
  - simpl. rewrite ?take_0, ?drop_0. split; reflexivity.
  - rewrite serve_claims_cons. simpl fst. simpl snd.
    pose proof (getTaskForExecution_queue now s) as Hq.
    destruct (pending_queue s) as [|t q] eqn:E.
    + rewrite Hq. simpl fst. simpl snd.
      destruct (IH s) as [H1 H2]. rewrite E in H1, H2.
      rewrite H1, H2. rewrite !take_nil, !drop_nil. simpl.
      rewrite Nat.sub_0_r. split; reflexivity.
    + destruct Hq as [Hresp Hrest].
      destruct (IH (fst (getTaskForExecution now s))) as [H1 H2].
      rewrite Hrest in H1, H2. rewrite Hresp, H1, H2. simpl.
      split; reflexivity.
Qed.

(** X9. Calls of [getTaskForExecution] one after the other, on any
    registry, hand out the pending tasks in the order of the slice, one per
    call; the calls that come after the last pending task is gone get
    [NotFound]; the pending tasks that are left are those that no call
    reached. *)
Theorem getTaskForExecution_fifo (nows : list Time) (s : Registry) :
  snd (serve (claims nows) s)
  = (OkTask <$> take (length nows) (pending_queue s))
      ++ replicate (length nows - length (pending_queue s)) NotFound
  /\ pending_queue (fst (serve (claims nows) s))
     = drop (length nows) (pending_queue s).
Proof. apply serve_claims_drain. Qed.

Lemma addTask_queue (req : TaskRequest) (s : Registry) :
  pending_queue (fst (addTask (Some req) s))
  = pending_queue s
      ++ [mkTask (wrap_int (taskIDCounter s + 1)) (reqExpression req)
                 "pending" zero_float zero_time].
Proof. unfold pending_queue. simpl. rewrite List.filter_app. reflexivity. Qed.

(** X10. A task created by [addTask] goes to the back of the queue: with
    [m] tasks pending before the call, the next [m] calls of
    [getTaskForExecution] hand out those, and call [m + 1] hands out the new
    task.  With nothing pending ([m = 0]) the very next call hands out the
    new task. *)
Theorem addTask_then_claims (req : TaskRequest) (s : Registry)
    (nows : list Time) (now : Time) :
  length nows = length (pending_queue s) ->
  snd (serve (claims (nows ++ [now])) (fst (addTask (Some req) s)))
  = (OkTask <$> pending_queue s)
      ++ [OkTask (mkTask (wrap_int (taskIDCounter s + 1)) (reqExpression req)
                         "pending" zero_float zero_time)].
Proof.
  intros Hlen.
  destruct (serve_claims_drain (nows ++ [now]) (fst (addTask (Some req) s))) as [H _].
  rewrite H, addTask_queue, !length_app, Hlen. simpl.
  rewrite take_ge by (rewrite length_app; simpl; lia).
  rewrite Nat.sub_diag. simpl. rewrite app_nil_r, fmap_app. reflexivity.
Qed.

Lemma addTask_then_claims_witness :
  let s := registry_after [create "1+1"; create "2*3"; ReqGetTaskForExecution 5] in
  snd (serve (claims [7; 8]) (fst (addTask (Some (mkTaskRequest "8/4")) s)))
  = [ OkTask (mkTask 2 "2*3" "pending" zero_float zero_time);
      OkTask (mkTask 3 "8/4" "pending" zero_float zero_time) ].
Proof.
  apply (addTask_then_claims (mkTaskRequest "8/4")
           (registry_after [create "1+1"; create "2*3"; ReqGetTaskForExecution 5])
           [7] 8).
  reflexivity.
Defined.

(** ** Records are frozen once a worker has them *)

Lemma untouched_or_started_refl (t : Task) : untouched_or_started t t.
Proof. left. reflexivity. Qed.

Lemma untouched_or_started_trans (t1 t2 t3 : Task) :
  untouched_or_started t1 t2 -> untouched_or_started t2 t3 ->
  untouched_or_started t1 t3.
Proof.
  intros [->|[Hp [now ->]]] H23; [exact H23|].
  destruct H23 as [->|[Hp' _]].
  - right. split; [exact Hp|]. exists now. reflexivity.
  - simpl in Hp'. discriminate.
Qed.

Lemma getTaskForExecution_record (now : Time) (s : Registry) (i : nat) (t : Task) :
  tasks s !! i = Some t ->
  exists t', tasks (fst (getTaskForExecution now s)) !! i = Some t'
             /\ untouched_or_started t t'.
Proof.
  intros Hi. destruct (not_pending_dec (tasks s)) as [Hall|Hn].
  - rewrite (getTaskForExecution_empty now s Hall). simpl.
    exists t. split; [exact Hi | apply untouched_or_started_refl].
  - destruct (first_pending_split _ Hn) as (l1 & t0 & l2 & Hs & Hl1 & Ht0).
    rewrite (getTaskForExecution_split now s l1 t0 l2 Hs Hl1 Ht0). simpl.
    rewrite Hs in Hi.
    destruct (lookup_replace_middle l1 t0
                (set_StartTime now (set_Status "in_progress" t0)) l2 i t Hi)
      as [H|[-> H]].
    + exists t. split; [exact H | apply untouched_or_started_refl].
    + eexists. split; [exact H|]. right. split; [exact Ht0|]. exists now. reflexivity.
Qed.

Lemma route_record (r : Request) (s : Registry) (i : nat) (t : Task) :
  is_report r = false ->
  tasks s !! i = Some t ->
  exists t', tasks (fst (route r s)) !! i = Some t' /\ untouched_or_started t t'.
Proof.
  intros Hr Hi. destruct r as [[req|] | taskID | | now | body]; simpl in *.
  - exists t. split; [|apply untouched_or_started_refl].
    rewrite lookup_app_l; [exact Hi | apply lookup_lt_Some in Hi; exact Hi].
  - exists t. split; [exact Hi | apply untouched_or_started_refl].
  - unfold getTaskStatus. destruct (status_loop taskID (tasks s)); simpl;
      (exists t; split; [exact Hi | apply untouched_or_started_refl]).
  - exists t. split; [exact Hi | apply untouched_or_started_refl].
  - apply getTaskForExecution_record. exact Hi.
  - discriminate.
Qed.

(** X11. As long as no [handleResult] runs, a stored record changes at most
    once: a record that is not pending stays exactly as it is (id,
    expression, status, result and start time), and a pending record either
    stays as it is or has become in_progress with a start time, keeping its
    id, expression and result. *)
Theorem records_frozen_without_handleResult
    (reqs : list Request) (s : Registry) (i : nat) (t : Task) :
  Forall (fun r => is_report r = false) reqs ->
  tasks s !! i = Some t ->
  exists t', tasks (fst (serve reqs s)) !! i = Some t'
             /\ (t' = t
                 \/ (Status t = "pending"
                     /\ exists now,
                          t' = mkTask (ID t) (Expression t) "in_progress" (Result t) now)).
Proof.
  revert s t. induction reqs as [|r reqs IH]; intros s t Hreqs Hi.
  - exists t. split; [exact Hi | left; reflexivity].
  - inversion Hreqs as [|? ? Hr Hreqs']; subst.
    rewrite serve_cons. simpl fst.
    destruct (route_record r s i t Hr Hi) as (t1 & Hi1 & H1).
    destruct (IH _ t1 Hreqs' Hi1) as (t2 & Hi2 & H2).
    exists t2. split; [exact Hi2|].
    exact (untouched_or_started_trans t t1 t2 H1 H2).
Qed.

Lemma records_frozen_without_handleResult_witness :
  let s := registry_after [create "1+1"; create "2*3"; ReqGetTaskForExecution 5] in
  let t := mkTask 2 "2*3" "pending" zero_float zero_time in
  exists t', tasks (fst (serve [ReqGetTaskForExecution 8; create "8/4";
                                ReqGetTaskForExecution 9] s)) !! 1%nat = Some t'
             /\ (t' = t
                 \/ (Status t = "pending"
                     /\ exists now,
                          t' = mkTask (ID t) (Expression t) "in_progress" (Result t) now)).
Proof.
  apply (records_frozen_without_handleResult
           [ReqGetTaskForExecution 8; create "8/4"; ReqGetTaskForExecution 9]
           (registry_after [create "1+1"; create "2*3"; ReqGetTaskForExecution 5])
           1%nat (mkTask 2 "2*3" "pending" zero_float zero_time)).
  - repeat constructor.
  - reflexivity.
Defined.

(** ** More on concurrent handlers *)

(** X12. Mutual exclusion: whatever the schedule, at most one handler is
    between [Lock] and the deferred [Unlock], and the mutex is held exactly
    when one is. *)
Theorem mutex_excludes (l0 : list Task) (k : nat) (sched : list (nat * Time)) :
  let c := run_schedule sched (start_workers k l0) in
  (forall (j1 j2 : nat) (w1 w2 : Worker),
      workers c !! j1 = Some w1 -> workers c !! j2 = Some w2 ->
      in_section w1 = true -> in_section w2 = true -> j1 = j2)
  /\ (mutex_locked c = true
      <-> exists j w, workers c !! j = Some w /\ in_section w = true).
Proof.
  intros c. destruct (reachable_inv l0 k sched) as [f HI]. fold c in HI.
  split; [exact (inv_exclusive _ _ _ HI)|].
  pose proof (inv_mutex _ _ _ HI) as Hm.
  destruct (mutex_locked c).
  - split; [intros _; exact Hm | reflexivity].
  - split; [discriminate|]. intros (j & w & Hj & E).
    rewrite (Hm j w Hj) in E. discriminate.
Qed.

Lemma mutex_excludes_witness :
  let l0 := [mkTask 1 "1+1" "pending" zero_float zero_time] in
  let c := run_schedule [(1%nat, 10); (0%nat, 11); (1%nat, 12); (0%nat, 13)]
             (start_workers 2 l0) in
  workers c = [AtLock; AtTest 1 0 (mkTask 1 "1+1" "pending" zero_float zero_time)]
  /\ (mutex_locked c = true
      <-> exists j w, workers c !! j = Some w /\ in_section w = true).
Proof.
  split; [reflexivity|].
  apply (proj2 (mutex_excludes [mkTask 1 "1+1" "pending" zero_float zero_time] 2
                  [(1%nat, 10); (0%nat, 11); (1%nat, 12); (0%nat, 13)])).
Defined.

(** X13. Every answer of a concurrent handler is justified: a handler that
    was answered with a task was answered with a task of the initial slice
    that was pending there, and a handler is answered with [NotFound] only
    when no stored task is pending (and none is from then on, while only
    such handlers run). *)
Theorem concurrent_answers_justified (l0 : list Task) (k : nat)
    (sched : list (nat * Time)) (j : nat) (resp : Response) :
  let c := run_schedule sched (start_workers k l0) in
  workers c !! j = Some (Returned resp) ->
  (exists task, resp = OkTask task /\ task ∈ l0 /\ Status task = "pending")
  \/ (resp = NotFound /\ Forall (fun t => Status t <> "pending") (shared_tasks c)).
Proof.
  intros c Hj. destruct (reachable_inv l0 k sched) as [f HI]. fold c in HI.
  destruct (returned_cases l0 f c j resp HI Hj) as [(task & -> & Hl0 & Hp & _) | H].
  - left. exists task. split; [reflexivity|].
    split; [exact (list_elem_of_lookup_2 _ _ _ Hl0) | exact Hp].
  - right. exact H.
Qed.

Lemma concurrent_answers_justified_witness :
  let l0 := [ mkTask 1 "1+1" "in_progress" zero_float 3;
              mkTask 2 "2*3" "pending" zero_float zero_time ] in
  let sched := concat (replicate 24 [(1%nat, 10); (0%nat, 11); (2%nat, 12)]) in
  let c := run_schedule sched (start_workers 3 l0) in
  (exists task, NotFound = OkTask task /\ task ∈ l0 /\ Status task = "pending")
  \/ (NotFound = NotFound /\ Forall (fun t => Status t <> "pending") (shared_tasks c)).
Proof.
  apply (concurrent_answers_justified
           [ mkTask 1 "1+1" "in_progress" zero_float 3;
             mkTask 2 "2*3" "pending" zero_float zero_time ]
           3 (concat (replicate 24 [(1%nat, 10); (0%nat, 11); (2%nat, 12)]))
           0%nat NotFound).
  vm_compute. reflexivity.
Defined.

(** *** Counting the tasks that are handed out *)

Lemma filter_length_insert {A : Type} (p : A -> bool) (l : list A) :
  forall (j : nat) (x y : A), l !! j = Some y ->
  (length (List.filter p (<[j := x]> l)) + Nat.b2n (p y)
   = length (List.filter p l) + Nat.b2n (p x))%nat.
Proof.
  induction l as [|a l IH]; intros [|j] x y; simpl; try discriminate.
  - intros [= ->]. destruct (p x), (p y); simpl; lia.
  - intros H. specialize (IH j x y H). destruct (p a); simpl; lia.
Qed.

Lemma alter_is_insert {A : Type} (g : A -> A) (l : list A) (i : nat) (x : A) :
  l !! i = Some x -> alter g i l = <[i := g x]> l.
Proof.
  revert i. induction l as [|a l IH]; intros [|i]; simpl; try discriminate.
  - intros [= ->]. reflexivity.
  - intros H. f_equal. apply IH. exact H.
Qed.

Lemma count_open_moved (c : Config) (j : nat) (w w' : Worker) (locked' : bool) :
  workers c !! j = Some w -> is_credited w' = is_credited w ->
  count_open {| shared_tasks := shared_tasks c; mutex_locked := locked';
                workers := <[j := w']> (workers c) |}
  = count_open c.
Proof.
  intros Hj E. unfold count_open. simpl.
  pose proof (filter_length_insert is_credited (workers c) j w' w Hj) as H.
  rewrite E in H. lia.
Qed.

(** Pending tasks plus tasks already taken: no statement changes the sum. *)
Lemma step_worker_count (l0 : list Task) (f : nat -> nat) (c c' : Config)
    (j : nat) (now : Time) :
  Inv l0 f c -> step_worker j now c = Some c' -> count_open c' = count_open c.
Proof.
  intros HI. unfold step_worker.
  destruct (workers c !! j) as [w|] eqn:Hj; [|discriminate].
  pose proof (inv_workers _ _ _ HI j w Hj) as Hok.
  destruct w as [|n i|n i task|i task|i task|task| |resp]; simpl in *.
  - destruct (mutex_locked c); [discriminate|]. intros [= <-].
    apply (count_open_moved c j AtLock); [exact Hj | reflexivity].
  - destruct (i <? n)%nat;
      [destruct (shared_tasks c !! i); [|discriminate]|];
      intros [= <-]; apply (count_open_moved c j (AtRange n i)); try exact Hj; reflexivity.
  - destruct (String.eqb (Status task) "pending"); intros [= <-];
      apply (count_open_moved c j (AtTest n i task)); try exact Hj; reflexivity.
  - intros [= <-]. destruct Hok as [Hi Hp]. unfold count_open. simpl.
    rewrite (alter_is_insert _ _ _ _ Hi).
    pose proof (filter_length_insert is_pending (shared_tasks c) i
                  (set_Status "in_progress" task) task Hi) as H1.
    pose proof (filter_length_insert is_credited (workers c) j
                  (AtSetStartTime i task) (AtSetStatus i task) Hj) as H2.
    apply is_pending_true in Hp. rewrite Hp in H1. simpl in H1, H2. lia.
  - intros [= <-]. destruct Hok as (Hf & _ & _ & t' & Ht' & Hnp). rewrite Hf in Ht'.
    unfold count_open. simpl.
    rewrite (alter_is_insert _ _ _ _ Ht').
    pose proof (filter_length_insert is_pending (shared_tasks c) i
                  (set_StartTime now t') t' Ht') as H1.
    pose proof (filter_length_insert is_credited (workers c) j
                  (AtEncode task) (AtSetStartTime i task) Hj) as H2.
    change (is_pending (set_StartTime now t')) with (is_pending t') in H1.
    simpl in H2. lia.
  - intros [= <-]. apply (count_open_moved c j (AtEncode task)); [exact Hj | reflexivity].
  - intros [= <-]. apply (count_open_moved c j AtNotFound); [exact Hj | reflexivity].
  - discriminate.
Qed.

Lemma run_schedule_count (l0 : list Task) (sched : list (nat * Time)) :
  forall c : Config,
  (exists f, Inv l0 f c) -> count_open (run_schedule sched c) = count_open c.
Proof.
  induction sched as [|[j now] sched IH]; intros c HI; simpl; [reflexivity|].
  destruct (step_worker j now c) as [c'|] eqn:E.
  - destruct HI as [f HI].
    rewrite IH by exact (step_worker_inv l0 f c c' j now HI E).
    exact (step_worker_count l0 f c c' j now HI E).
  - apply IH. exact HI.
Qed.

Lemma filter_all {A : Type} (p : A -> bool) (l : list A) :
  (forall x, In x l -> p x = true) -> List.filter p l = l.
Proof.
  induction l as [|a l IH]; intros H; simpl; [reflexivity|].
  rewrite (H a) by (left; reflexivity). f_equal. apply IH.
  intros x Hx. apply H. right. exact Hx.
Qed.

Lemma filter_length_le {A : Type} (p : A -> bool) (l : list A) :
  (length (List.filter p l) <= length l)%nat.
Proof. induction l as [|a l IH]; simpl; [lia|]. destruct (p a); simpl; lia. Qed.

(** X14. With [m] tasks pending at the start and [k] concurrent handlers,
    once all handlers have returned exactly [min k m] of them were answered
    with a task, whatever the schedule. *)
Theorem concurrent_claims_count (l0 : list Task) (k : nat) (sched : list (nat * Time)) :
  let c := run_schedule sched (start_workers k l0) in
  all_returned c = true ->
  length (List.filter got_task (workers c))
  = Nat.min k (length (List.filter is_pending l0)).
Proof.
  intros c Hall.
  destruct (reachable_inv l0 k sched) as [f HI]. fold c in HI.
  assert (Hk : length (workers c) = k).
  { unfold c. rewrite run_schedule_length. simpl. apply length_replicate. }
  assert (Hcount : count_open c = length (List.filter is_pending l0)).
  { unfold c. rewrite (run_schedule_count l0 sched).
    - unfold count_open. simpl.
      assert (List.filter is_credited (replicate k AtLock) = []) as ->.
      { clear. induction k; simpl; auto. }
      simpl. lia.
    - exists (fun _ => 0%nat). apply start_workers_inv. }
  assert (Hsame : List.filter is_credited (workers c) = List.filter got_task (workers c)).
  { apply List.filter_ext_in. intros w Hw.
    apply list_elem_of_In, list_elem_of_lookup in Hw as [j Hj].
    destruct (all_returned_lookup c j w Hall Hj) as [resp ->].
    destruct resp; reflexivity. }
  unfold count_open in Hcount. rewrite Hsame in Hcount.
  pose proof (filter_length_le got_task (workers c)) as Hle.
  destruct (List.filter is_pending (shared_tasks c)) as [|t q] eqn:Eq.
  - simpl in Hcount. lia.
  - assert (List.filter got_task (workers c) = workers c) as Hfull.
    { apply filter_all. intros w Hw.
      apply list_elem_of_In, list_elem_of_lookup in Hw as [j Hj].
      destruct (all_returned_lookup c j w Hall Hj) as [resp ->].
      destruct (returned_cases l0 f c j resp HI Hj) as [(task & -> & _) | [_ Hnone]];
        [reflexivity|].
      rewrite (filter_not_pending _ Hnone) in Eq. discriminate. }
    rewrite Hfull in *. simpl in Hcount. lia.
Qed.

Lemma concurrent_claims_count_witness :
  let l0 := [ mkTask 1 "1+1" "in_progress" zero_float 3;
              mkTask 2 "2*3" "pending" zero_float zero_time ] in
  let sched := concat (replicate 24 [(1%nat, 10); (0%nat, 11); (2%nat, 12)]) in
  length (List.filter got_task (workers (run_schedule sched (start_workers 3 l0))))
  = 1%nat.
Proof.
  apply (concurrent_claims_count
           [ mkTask 1 "1+1" "in_progress" zero_float 3;
             mkTask 2 "2*3" "pending" zero_float zero_time ]
           3 (concat (replicate 24 [(1%nat, 10); (0%nat, 11); (2%nat, 12)]))).
  vm_compute. reflexivity.
Defined.

(** *** Every concurrent run is a sequential run *)

Lemma seq_registry_snoc (s0 : Registry) (order : list (nat * Time)) (j : nat) (now : Time) :
  seq_registry s0 (order ++ [(j, now)])
  = fst (getTaskForExecution now (seq_registry s0 order)).
Proof.
  unfold seq_registry, claims. rewrite !fmap_app, serve_app. simpl.
  destruct (getTaskForExecution now _). reflexivity.
Qed.

Lemma seq_responses_snoc (s0 : Registry) (order : list (nat * Time)) (j : nat) (now : Time) :
  seq_responses s0 (order ++ [(j, now)])
  = seq_responses s0 order ++ [snd (getTaskForExecution now (seq_registry s0 order))].
Proof.
  unfold seq_responses, seq_registry, claims. rewrite !fmap_app, serve_app. simpl.
  destruct (getTaskForExecution now _). reflexivity.
Qed.

Lemma seq_responses_length (s0 : Registry) (order : list (nat * Time)) :
  length (seq_responses s0 order) = length order.
Proof.
  induction order as [|[j now] order IH] using rev_ind; [reflexivity|].
  rewrite seq_responses_snoc, !length_app, IH. reflexivity.
Qed.

Lemma alter_middle {A : Type} (g : A -> A) (l1 : list A) (x : A) (l2 : list A) :
  alter g (length l1) (l1 ++ x :: l2) = l1 ++ g x :: l2.
Proof.
  replace (length l1) with (length l1 + 0)%nat by lia.
  rewrite alter_app_r. reflexivity.
Qed.

(** The two assignments of a worker, done at the first pending task, are
    what the handler does. *)
Lemma two_writes_are_handler (now : Time) (sq : Registry) (i : nat) (task : Task) :
  tasks sq !! i = Some task -> Status task = "pending" ->
  below_not_pending (tasks sq) i ->
  getTaskForExecution now sq
  = (with_tasks sq (alter (set_StartTime now) i
                      (alter (set_Status "in_progress") i (tasks sq))),
     OkTask task).
Proof.
  intros Hi Hp Hb.
  destruct (split_at_index not_pending (tasks sq) i task Hi Hb) as (Hsplit & Hpre & Hlen).
  remember (take i (tasks sq)) as l1 eqn:E1.
  remember (drop (S i) (tasks sq)) as l2 eqn:E2.
  clear E1 E2. subst i.
  rewrite (getTaskForExecution_split now sq l1 task l2 Hsplit Hpre Hp).
  rewrite Hsplit, !alter_middle. reflexivity.
Qed.

(** A worker moves inside its critical section or enters it. *)
Lemma lin_move (l0 : list Task) (f : nat -> nat) (s0 : Registry) (c : Config)
    (order : list (nat * Time)) (j : nat) (w w' : Worker) (l' : list Task) :
  Lin s0 c order ->
  workers c !! j = Some w ->
  (forall j2 w2, j2 <> j -> workers c !! j2 = Some w2 -> in_section w2 = false) ->
  has_returned w = false -> in_section w' = true ->
  section_rel (seq_registry s0 order) l' w' ->
  Lin s0 {| shared_tasks := l'; mutex_locked := true;
            workers := <[j := w']> (workers c) |} order.
Proof.
  intros HL Hj Hout Hw Hw' Hrel.
  assert (Hnot : j ∉ (fst <$> order)).
  { intros Hin. apply (lin_returned _ _ _ HL) in Hin as [resp Hresp].
    rewrite Hj in Hresp. injection Hresp as ->. discriminate. }
  constructor; simpl.
  - exact (lin_nodup _ _ _ HL).
  - intros j2. rewrite (lin_returned _ _ _ HL j2). split; intros [resp Hresp].
    + destruct (decide (j2 = j)) as [->|Hne].
      * rewrite Hj in Hresp. injection Hresp as ->. discriminate.
      * exists resp. rewrite list_lookup_insert_ne by congruence. exact Hresp.
    + apply lookup_moved in Hresp as [[-> E] | [_ Hresp]].
      * rewrite <- E in Hw'. discriminate.
      * exists resp. exact Hresp.
  - intros p j2 now2 Hp.
    destruct (lin_responses _ _ _ HL p j2 now2 Hp) as (resp & Hresp & Hseq).
    exists resp. split; [|exact Hseq].
    rewrite list_lookup_insert_ne; [exact Hresp|].
    intros ->. rewrite Hj in Hresp. injection Hresp as ->. discriminate.
  - intros j2 w2 Hj2. apply lookup_moved in Hj2 as [[-> ->] | [Hne Hj2]]; [exact Hrel|].
    pose proof (Hout j2 w2 Hne Hj2) as E. destruct w2; simpl in E; try discriminate; exact I.
  - discriminate.
Qed.

(** A worker returns: its critical section becomes the next call of the
    sequential run. *)
Lemma lin_return (s0 : Registry) (c : Config) (order : list (nat * Time))
    (j : nat) (w : Worker) (now : Time) (resp : Response) :
  Lin s0 c order ->
  workers c !! j = Some w ->
  (forall j2 w2, j2 <> j -> workers c !! j2 = Some w2 -> in_section w2 = false) ->
  has_returned w = false ->
  snd (getTaskForExecution now (seq_registry s0 order)) = resp ->
  tasks (fst (getTaskForExecution now (seq_registry s0 order))) = shared_tasks c ->
  Lin s0 {| shared_tasks := shared_tasks c; mutex_locked := false;
            workers := <[j := Returned resp]> (workers c) |}
      (order ++ [(j, now)]).
Proof.
  intros HL Hj Hout Hw Hresp Htasks.
  assert (Hnot : j ∉ (fst <$> order)).
  { intros Hin. apply (lin_returned _ _ _ HL) in Hin as [r Hr].
    rewrite Hj in Hr. injection Hr as ->. discriminate. }
  constructor; simpl.
  - rewrite fmap_app. simpl. apply NoDup_app. split; [exact (lin_nodup _ _ _ HL)|].
    split; [|apply NoDup_singleton].
    intros x Hx Hx'. apply list_elem_of_singleton in Hx'. subst x. exact (Hnot Hx).
  - intros j2. rewrite fmap_app, elem_of_app. simpl.
    rewrite list_elem_of_singleton, (lin_returned _ _ _ HL j2). split.
    + intros [[r Hr] | ->].
      * exists r. rewrite list_lookup_insert_ne; [exact Hr|].
        intros ->. rewrite Hj in Hr. injection Hr as ->. discriminate.
      * exists resp. exact (lookup_moved_self _ _ _ _ Hj).
    + intros [r Hr]. apply lookup_moved in Hr as [[-> _] | [_ Hr]].
      * right. reflexivity.
      * left. exists r. exact Hr.
  - intros p j2 now2 Hp. rewrite seq_responses_snoc, Hresp.
    destruct (decide (p < length order)%nat) as [Hlt|Hge].
    + rewrite lookup_app_l in Hp by exact Hlt.
      destruct (lin_responses _ _ _ HL p j2 now2 Hp) as (r & Hr & Hseq).
      exists r. split.
      * rewrite list_lookup_insert_ne; [exact Hr|].
        intros ->. rewrite Hj in Hr. injection Hr as ->. discriminate.
      * rewrite lookup_app_l by (rewrite seq_responses_length; exact Hlt). exact Hseq.
    + rewrite lookup_app_r in Hp by lia.
      destruct (p - length order)%nat as [|m] eqn:E; [|destruct m; discriminate].
      simpl in Hp. injection Hp as <- <-.
      exists resp. split; [exact (lookup_moved_self _ _ _ _ Hj)|].
      rewrite lookup_app_r by (rewrite seq_responses_length; lia).
      rewrite seq_responses_length, E. reflexivity.
  - intros j2 w2 Hj2. apply lookup_moved in Hj2 as [[-> ->] | [Hne Hj2]]; [exact I|].
    pose proof (Hout j2 w2 Hne Hj2) as E. destruct w2; simpl in E; try discriminate; exact I.
  - intros _. rewrite seq_registry_snoc. symmetry. exact Htasks.
Qed.

Lemma step_worker_lin (l0 : list Task) (f : nat -> nat) (s0 : Registry)
    (c c' : Config) (order : list (nat * Time)) (j : nat) (now : Time) :
  Inv l0 f c -> Lin s0 c order -> step_worker j now c = Some c' ->
  exists order', Lin s0 c' order'.
Proof.
  intros HI HL. unfold step_worker.
  destruct (workers c !! j) as [w|] eqn:Hj; [|discriminate].
  destruct (worker_step now (shared_tasks c) (mutex_locked c) w) as [[[l' locked'] w']|] eqn:Hstep;
    [|discriminate].
  intros [= <-].
  pose proof (others_outside l0 f c j now w _ HI Hj Hstep) as Hout.
  pose proof (inv_workers _ _ _ HI j w Hj) as Hok.
  pose proof (lin_section _ _ _ HL j w Hj) as Hrel.
  destruct w as [|n i|n i task|i task|i task|task| |resp]; simpl in Hstep, Hok, Hrel.
  - destruct (mutex_locked c) eqn:Hm; [discriminate|]. injection Hstep as <- <- <-.
    exists order. apply (lin_move l0 f s0 c order j AtLock); try assumption; try reflexivity.
    simpl. split; [exact (lin_idle _ _ _ HL Hm)|]. intros i' t Hlt. lia.
  - destruct Hok as [-> _]. destruct Hrel as [Hsh Hb].
    pose proof (section_holds_mutex l0 f c j _ HI Hj eq_refl) as Hm. rewrite Hm in Hstep.
    destruct (Nat.ltb_spec i (length (shared_tasks c))) as [Hlt|Hge].
    + destruct (shared_tasks c !! i) as [task|] eqn:Hi; [|discriminate].
      injection Hstep as <- <- <-. exists order.
      apply (lin_move l0 f s0 c order j (AtRange (length (shared_tasks c)) i));
        try assumption; try reflexivity.
      simpl. rewrite Hsh in Hi. auto.
    + injection Hstep as <- <- <-. exists order.
      apply (lin_move l0 f s0 c order j (AtRange (length (shared_tasks c)) i));
        try assumption; try reflexivity.
      simpl. split; [exact Hsh|]. rewrite Hsh in Hge.
      apply (below_not_pending_all _ i Hge Hb).
  - destruct Hrel as (Hsh & Hi & Hb).
    pose proof (section_holds_mutex l0 f c j _ HI Hj eq_refl) as Hm. rewrite Hm in Hstep.
    destruct (String.eqb_spec (Status task) "pending") as [Hp|Hnp];
      injection Hstep as <- <- <-; exists order;
      apply (lin_move l0 f s0 c order j (AtTest n i task));
      try assumption; try reflexivity; simpl.
    + auto.
    + split; [exact Hsh|]. apply (below_not_pending_next _ i task Hi Hnp Hb).
  - destruct Hrel as (Hsh & Hi & Hp & Hb).
    pose proof (section_holds_mutex l0 f c j _ HI Hj eq_refl) as Hm. rewrite Hm in Hstep.
    injection Hstep as <- <- <-. exists order.
    apply (lin_move l0 f s0 c order j (AtSetStatus i task));
      try assumption; try reflexivity.
    simpl. rewrite Hsh. auto.
  - destruct Hrel as (Hsh & Hi & Hp & Hb).
    pose proof (section_holds_mutex l0 f c j _ HI Hj eq_refl) as Hm. rewrite Hm in Hstep.
    injection Hstep as <- <- <-. exists order.
    apply (lin_move l0 f s0 c order j (AtSetStartTime i task));
      try assumption; try reflexivity.
    simpl. exists now.
    rewrite (two_writes_are_handler now _ i task Hi Hp Hb). simpl.
    rewrite Hsh. split; reflexivity.
  - destruct Hrel as (now' & Hresp & Htasks).
    injection Hstep as <- <- <-. exists (order ++ [(j, now')]).
    apply (lin_return s0 c order j (AtEncode task)); try assumption; reflexivity.
  - destruct Hrel as [Hsh Hnone].
    injection Hstep as <- <- <-. exists (order ++ [(j, now)]).
    apply (lin_return s0 c order j AtNotFound); try assumption; try reflexivity.
    + rewrite (getTaskForExecution_empty now _ Hnone). reflexivity.
    + rewrite (getTaskForExecution_empty now _ Hnone). simpl. symmetry. exact Hsh.
  - discriminate.
Qed.

Lemma start_workers_lin (s0 : Registry) (k : nat) :
  Lin s0 (start_workers k (tasks s0)) [].
Proof.
  constructor; simpl.
  - constructor.
  - intros j. split.
    + intros H. apply elem_of_nil in H. destruct H.
    + intros [resp H]. apply lookup_replicate in H as [H _]. discriminate.
  - intros p j now H. discriminate.
  - intros j w H. apply lookup_replicate in H as [-> _]. exact I.
  - reflexivity.
Qed.

Lemma run_schedule_lin (s0 : Registry) (sched : list (nat * Time)) :
  forall c : Config,
  (exists f, Inv (tasks s0) f c) -> (exists order, Lin s0 c order) ->
  exists order, Lin s0 (run_schedule sched c) order.
Proof.
  induction sched as [|[j now] sched IH]; intros c HI HL; simpl; [exact HL|].
  destruct (step_worker j now c) as [c'|] eqn:E.
  - destruct HI as [f HI]. destruct HL as [order HL]. apply IH.
    + exact (step_worker_inv _ f c c' j now HI E).
    + exact (step_worker_lin _ f s0 c c' order j now HI HL E).
  - apply IH; assumption.
Qed.

(** X15. Every complete concurrent run is a sequential run.  When [k]
    handlers [getTaskForExecution], started on the registry [s0] and
    scheduled in any way, have all returned, there is an order of the [k]
    handlers (each with a clock reading) such that calling the handler
    once per entry, one call after the other in this order, leaves the same
    task slice and gives every handler the answer it got. *)
Theorem concurrent_run_is_sequential (s0 : Registry) (k : nat)
    (sched : list (nat * Time)) :
  let c := run_schedule sched (start_workers k (tasks s0)) in
  all_returned c = true ->
  exists order : list (nat * Time),
    NoDup (fst <$> order)
    /\ (forall j, j ∈ (fst <$> order) <-> (j < k)%nat)
    /\ shared_tasks c = tasks (fst (serve (claims (snd <$> order)) s0))
    /\ (forall p j now, order !! p = Some (j, now) ->
          exists resp, workers c !! j = Some (Returned resp)
                       /\ snd (serve (claims (snd <$> order)) s0) !! p = Some resp).
Proof.
  intros c Hall.
  destruct (reachable_inv (tasks s0) k sched) as [f HI]. fold c in HI.
  destruct (run_schedule_lin s0 sched (start_workers k (tasks s0))) as [order HL].
  { exists (fun _ => 0%nat). apply start_workers_inv. }
  { exists []. apply start_workers_lin. }
  fold c in HL.
  assert (Hk : length (workers c) = k).
  { unfold c. rewrite run_schedule_length. simpl. apply length_replicate. }
  exists order. split; [exact (lin_nodup _ _ _ HL)|]. split; [|split].
  - intros j. rewrite (lin_returned _ _ _ HL j). split.
    + intros [resp H]. apply lookup_lt_Some in H. lia.
    + intros Hlt. destruct (lookup_lt_is_Some_2 (workers c) j) as [w Hw]; [lia|].
      destruct (all_returned_lookup c j w Hall Hw) as [resp ->]. exists resp. exact Hw.
  - apply (lin_idle _ _ _ HL).
    pose proof (inv_mutex _ _ _ HI) as Hm.
    destruct (mutex_locked c); [|reflexivity].
    destruct Hm as (j & w & Hj & E).
    destruct (all_returned_lookup c j w Hall Hj) as [resp ->]. discriminate.
  - exact (lin_responses _ _ _ HL).
Qed.

Lemma concurrent_run_is_sequential_witness :
  let s0 := registry_after [create "1+1"; create "2*3"; ReqGetTaskForExecution 3] in
  let sched := concat (replicate 24 [(1%nat, 10); (0%nat, 11); (2%nat, 12)]) in
  let c := run_schedule sched (start_workers 3 (tasks s0)) in
  exists order : list (nat * Time),
    NoDup (fst <$> order)
    /\ (forall j, j ∈ (fst <$> order) <-> (j < 3)%nat)
    /\ shared_tasks c = tasks (fst (serve (claims (snd <$> order)) s0))
    /\ (forall p j now, order !! p = Some (j, now) ->
          exists resp, workers c !! j = Some (Returned resp)
                       /\ snd (serve (claims (snd <$> order)) s0) !! p = Some resp).
Proof.
  apply (concurrent_run_is_sequential
           (registry_after [create "1+1"; create "2*3"; ReqGetTaskForExecution 3])
           3 (concat (replicate 24 [(1%nat, 10); (0%nat, 11); (2%nat, 12)]))).
  vm_compute. reflexivity.
Defined.
